(** * Agilent 663xx driver: the triggered acquisition sequence

    A shallow embedding of [Log.start_meas_sample] of [agilent_663xxx.py]
    and of the accessors it calls ([Status], [Common], [Trigger],
    [Command.read_write], [ValidateRegister]), run against a model of the
    VISA bus: a register store for the operation-status group, scripted
    replies for the event register and for the array fetch, and a
    service request that either arrives or times out.

    Every bus operation and every console message of a run is recorded,
    in order, in the run's trace.

    A second part embeds the validators on [str], [Command.read_write]
    with its settings dictionary and accessors of [Common], [Log],
    [Format] and [Trigger] built on them. *)

From Stdlib Require Import ZArith Lia List Ascii PrimFloat FloatOps SpecFloat Uint63.
From stdpp Require Import gmap strings pretty.

Set Warnings "-inexact-float".
Local Open Scope Z_scope.

(** ** Python values and built-ins *)

Module Py.

(** The character [chr(34)], the double quote of the literal ['"CURR"']. *)
Definition dquote : ascii := "034"%char.
(** Line feed and escape, as in ['\n'] and ['\033']. *)
Definition nl : string := String "010"%char EmptyString.
Definition esc : string := String "027"%char EmptyString.

(** ['"' + s + '"'] *)
Definition quoted (s : string) : string :=
  String dquote (s +:+ String dquote EmptyString).

(** [a in b] on two [str]: [a] occurs in [b] at some offset. *)
Fixpoint str_in (a b : string) : bool :=
  String.prefix a b ||
  match b with
  | EmptyString => false
  | String _ b' => str_in a b'
  end.

(** [s.split(',')]: cut at every comma, empty fields kept. *)
Fixpoint split_comma (s : string) : list string :=
  match s with
  | EmptyString => [EmptyString]
  | String c s' =>
      if Ascii.eqb c ","%char then EmptyString :: split_comma s'
      else match split_comma s' with
           | h :: t => String c h :: t
           | [] => [String c EmptyString]
           end
  end.

(** Truth value of an [int] in [if x:]. *)
Definition truthy (x : Z) : bool := negb (x =? 0).

(** [str(x)] of an [int]. *)
Definition str (x : Z) : string := pretty x.

(** [str(t)] of a pair of [int], as [format] prints a 2-tuple. *)
Definition str_pair (t : Z * Z) : string :=
  "(" +:+ str (fst t) +:+ ", " +:+ str (snd t) +:+ ")".

(** The exceptions a run can raise. *)
Inductive exn : Type :=
| VisaIOError_timeout          (* pyvisa: VI_ERROR_TMO from wait_for_srq *)
| ValueError (msg : string)    (* int(), np.array, np.arange *)
| TypeError (msg : string).    (* int(None) *)

(** Error objects the validators return (they are not raised). *)
Inductive error_object : Type :=
| ValueError_obj (msg : string)
| TypeError_obj (msg : string).

Definition error_str (e : error_object) : string :=
  match e with ValueError_obj m => m | TypeError_obj m => m end.

End Py.

(** ** numpy *)

Module Np.

(** Arrays by element type: [dtype='f'] is float32 (each float32 is a
    binary64 value), [np.arange] on Python floats gives float64. *)
Inductive ndarray : Type :=
| float32 (xs : list float)
| float64 (xs : list float).

(** [math.ceil] of a binary64 value; [None] for infinities and NaN. *)
Definition ceil (x : float) : option Z :=
  match Prim2SF x with
  | S754_zero _ => Some 0
  | S754_finite neg m e =>
      let mag := if 0 <=? e then Z.pos m * 2 ^ e else Z.pos m / 2 ^ (- e) in
      let whole := if 0 <=? e then true else Z.pos m mod 2 ^ (- e) =? 0 in
      Some (if neg then - mag else if whole then mag else mag + 1)
  | S754_infinity _ | S754_nan => None
  end.

(** [(double) i] *)
Definition of_index (i : nat) : float := of_uint63 (Uint63.of_Z (Z.of_nat i)).

(** [np.arange(start, stop, step)] on floats: the length is
    [ceil((stop - start) / step)]; the first two elements are [start]
    and [start + step], and element [i] is [start + i * delta] with
    [delta] the difference of the first two. A length that is not finite
    raises. *)
Definition arange (start stop step : float) : option (list float) :=
  match ceil ((stop - start) / step)%float with
  | None => None
  | Some len =>
      let next := (start + step)%float in
      let delta := (next - start)%float in
      Some (map (fun i => match i with
                          | O => start
                          | S O => next
                          | _ => (start + of_index i * delta)%float
                          end)
                (seq 0 (Z.to_nat len)))
  end.

End Np.

(** ** The VISA bus and the instrument behind it *)

Module Visa.

(** What a run does to the outside, in order. A written message
    [header + ' ' + str(value)] is kept as its two parts; [scpi_text]
    gives the text sent. *)
Inductive event : Type :=
| BusWrite (header : string) (arg : option Z)
| BusQuery (q : string)
| WaitSRQ (timeout_ms : Z)
| Print (text : string).


(** A reply of the instrument: a number in NR1 format or other text. *)
Inductive reply : Type :=
| NR1 (z : Z)
| Text (s : string).

Definition reply_text (r : reply) : string :=
  match r with NR1 z => Py.str z | Text s => s end.

(** The instrument as the driver sees it: the three operation-status
    registers and the service-request enable register hold what was last
    written to them; the operation event register answers from a script,
    one entry per read (0 when the script is exhausted); the array fetch
    answers with [fetch_reply]; [srq_raised] tells whether the service
    request arrives before the timeout. *)
Record Instrument : Type := mkInstrument {
  opr_ptr : Z;
  opr_ntr : Z;
  opr_enab : Z;
  sre : Z;
  opr_events : list Z;
  srq_raised : bool;
  fetch_reply : string -> string
}.

Definition hdr_ptr : string := ":STAT:OPER:PTR".
Definition hdr_ntr : string := ":STAT:OPER:NTR".
Definition hdr_enab : string := ":STAT:OPER:ENAB".
Definition hdr_sre : string := "*SRE".

(** Effect of one event on the instrument. *)
Definition dev_step (e : event) (d : Instrument) : Instrument :=
  match e with
  | BusWrite h (Some v) =>
      if String.eqb h hdr_ptr then
        mkInstrument v (opr_ntr d) (opr_enab d) (sre d)
                     (opr_events d) (srq_raised d) (fetch_reply d)
      else if String.eqb h hdr_ntr then
        mkInstrument (opr_ptr d) v (opr_enab d) (sre d)
                     (opr_events d) (srq_raised d) (fetch_reply d)
      else if String.eqb h hdr_enab then
        mkInstrument (opr_ptr d) (opr_ntr d) v (sre d)
                     (opr_events d) (srq_raised d) (fetch_reply d)
      else if String.eqb h hdr_sre then
        mkInstrument (opr_ptr d) (opr_ntr d) (opr_enab d) v
                     (opr_events d) (srq_raised d) (fetch_reply d)
      else d
  | BusQuery q =>
      if String.eqb q "STAT:OPER?" then
        mkInstrument (opr_ptr d) (opr_ntr d) (opr_enab d) (sre d)
                     (tl (opr_events d)) (srq_raised d) (fetch_reply d)
      else d
  | _ => d
  end.

(** The instrument's answer to a query. *)
Definition dev_reply (q : string) (d : Instrument) : reply :=
  if String.eqb q "STAT:OPER?" then NR1 (hd 0 (opr_events d))
  else if String.eqb q ":STAT:OPER:PTR?" then NR1 (opr_ptr d)
  else if String.eqb q ":STAT:OPER:NTR?" then NR1 (opr_ntr d)
  else if String.eqb q ":STAT:OPER:ENAB?" then NR1 (opr_enab d)
  else if String.eqb q "*SRE?" then NR1 (sre d)
  else Text (fetch_reply d q).

(** The instrument after a sequence of events. *)
Definition replay (d : Instrument) (tr : list event) : Instrument :=
  fold_left (fun d e => dev_step e d) tr d.

(** The three saved registers. *)
Definition registers (d : Instrument) : Z * Z * Z :=
  (opr_ptr d, opr_ntr d, opr_enab d).

End Visa.

(** ** Running driver code: state, trace and exceptions *)

Module Exec.
Import Visa.

(** The [Log] object: its bus, its [log_data] dictionary, and what
    [start_meas_sample] reads from its settings: [self.trig._trig['sense']]
    and the values [float(self._log['integration_time'])] and
    [float(self._log['sample_points'])]. *)
Record LogObj : Type := mkLog {
  bus : Instrument;
  log_data : gmap string Np.ndarray;
  trig_sense : string;
  integration_time : float;
  sample_points : float
}.

Definition with_bus (d : Instrument) (s : LogObj) : LogObj :=
  mkLog d (log_data s) (trig_sense s) (integration_time s) (sample_points s).

Definition with_log_data (m : gmap string Np.ndarray) (s : LogObj) : LogObj :=
  mkLog (bus s) m (trig_sense s) (integration_time s) (sample_points s).

Inductive outcome (A : Type) : Type :=
| Ret (a : A)
| Raise (e : Py.exn).
Arguments Ret {A} a.
Arguments Raise {A} e.

(** The result of running a piece of driver code: what it did, how it
    ended, and the object afterwards. *)
Record Run (A : Type) : Type := mkRun {
  trace : list event;
  result : outcome A;
  final : LogObj
}.
Arguments mkRun {A} trace result final.
Arguments trace {A} r.
Arguments result {A} r.
Arguments final {A} r.

Definition M (A : Type) : Type := LogObj -> Run A.

Definition ret {A} (a : A) : M A := fun s => mkRun [] (Ret a) s.

Definition raise {A} (e : Py.exn) : M A := fun s => mkRun [] (Raise e) s.

(** Sequencing: an exception ends the run where it is raised. *)
Definition bind {A B} (m : M A) (k : A -> M B) : M B := fun s =>
  match m s with
  | mkRun t (Ret a) s1 =>
      match k a s1 with
      | mkRun t' r s2 => mkRun (t ++ t') r s2
      end
  | mkRun t (Raise e) s1 => mkRun t (Raise e) s1
  end.

#[global] Instance M_ret : MRet M := @ret.
#[global] Instance M_bind : MBind M := fun A B k m => bind m k.

(** One event: recorded in the trace and applied to the instrument. *)
Definition emit (e : event) : M unit := fun s =>
  mkRun [e] (Ret tt) (with_bus (dev_step e (bus s)) s).

(** [self._bus.write(header + ' ' + str(value))] or
    [self._bus.write(header)] *)
Definition bus_write (header : string) (arg : option Z) : M unit :=
  emit (BusWrite header arg).

(** [self._bus.query(q)] *)
Definition bus_query (q : string) : M reply := fun s =>
  mkRun [BusQuery q] (Ret (dev_reply q (bus s)))
        (with_bus (dev_step (BusQuery q) (bus s)) s).

(** [self._bus.wait_for_srq(timeout)]: returns when the service request
    arrives, raises the VISA timeout error otherwise. *)
Definition wait_for_srq (timeout_ms : Z) : M unit := fun s =>
  mkRun [WaitSRQ timeout_ms]
        (if srq_raised (bus s) then Ret tt else Raise Py.VisaIOError_timeout)
        s.

(** [print(text)]: a console message, nothing on the bus. *)
Definition print (text : string) : M unit := fun s =>
  mkRun [Print text] (Ret tt) s.

(** [int(x)] of what an accessor returned. *)
Definition int (x : option reply) : M Z :=
  match x with
  | Some (NR1 z) => ret z
  | Some (Text s) =>
      raise (Py.ValueError ("invalid literal for int() with base 10: " +:+ s))
  | None => raise (Py.TypeError "int() argument must be a string or a number")
  end.

(** [self.log_data = m] *)
Definition set_log_data (m : gmap string Np.ndarray) : M unit := fun s =>
  mkRun [] (Ret tt) (with_log_data m s).

(** [self.log_data[k] = v] *)
Definition set_log_data_item (k : string) (v : Np.ndarray) : M unit := fun s =>
  mkRun [] (Ret tt) (with_log_data (<[k := v]> (log_data s)) s).

(** Reading an attribute of the object. *)
Definition get {A} (f : LogObj -> A) : M A := fun s => mkRun [] (Ret (f s)) s.

(** The value of a library call that either returns or raises [e]. *)
Definition of_option {A} (o : option A) (e : Py.exn) : M A :=
  match o with Some a => ret a | None => raise e end.

End Exec.

(** ** class Validate *)

Module Validate.

(** [int_range]: [x in range(y[0], y[1] + 1)] *)
Definition int_range (x : Z) (y : Z * Z) : bool :=
  (fst y <=? x) && (x <? snd y + 1).

Definition ansi_esc_seq : list (string * string) :=
  [ ("HEADER", Py.esc +:+ "[95m");
    ("OKBLUE", Py.esc +:+ "[94m");
    ("OKGREEN", Py.esc +:+ "[92m");
    ("WARNING", Py.esc +:+ "[93m");
    ("FAIL", Py.esc +:+ "[91m");
    ("ENDC", Py.esc +:+ "[0m");
    ("BOLD", Py.esc +:+ "[1m");
    ("UNDERLINE", Py.esc +:+ "[4m") ].

Definition ansi (k : string) : string :=
  match find (fun kv => String.eqb (fst kv) k) ansi_esc_seq with
  | Some kv => snd kv
  | None => EmptyString
  end.

(** [error_text(warning_type, error_type)] *)
Definition error_text (warning_type : string) (error_type : Py.error_object)
  : string :=
  ansi warning_type +:+ Py.error_str error_type +:+ ansi "ENDC".

(** [int_rng_tuple(validation_set, value)] on an [int] value: the text of
    the value when it is in range, a [ValueError] object otherwise. (The
    [TypeError] branch needs a value that is not an [int].) *)
Definition int_rng_tuple (validation_set : Z * Z) (value : Z)
  : string + Py.error_object :=
  if int_range value validation_set then inl (Py.str value)
  else inr (Py.ValueError_obj
              ("ValueError!" +:+ Py.nl +:+ "Not in range:(int) "
               +:+ Py.str_pair validation_set)).

End Validate.

(** ** class ValidateRegister *)

Module ValidateRegister.

Definition register_8 (value : Z) : string + Py.error_object :=
  let register_values := (0, 128) in
  Validate.int_rng_tuple register_values value.

Definition register_16 (value : Z) : string + Py.error_object :=
  let register_values := (0, 32767) in
  Validate.int_rng_tuple register_values value.

End ValidateRegister.

(** ** class Command *)

Module Command.
Import Visa Exec.

(** [read_write(query, write, validator, value)] as the register
    accessors call it, with no [value_dict]: a query when [value] is
    [None]; otherwise the value is validated, and either written or
    refused with a printed warning. The result is what Python returns:
    the reply, or [None]. *)
Definition read_write (query write : string)
    (validator : option (Z -> string + Py.error_object))
    (value : option Z) : M (option reply) :=
  match value with
  | None => r ← bus_query query; mret (Some r)
  | Some v =>
      match validator with
      | Some validate =>
          match validate v with
          | inr val =>
              print (Validate.error_text "WARNING" val);; mret None
          | inl _ =>
              bus_write write (Some v);; mret None
          end
      | None => bus_write write (Some v);; mret None
      end
  end.

Definition read (query : string) : M reply := bus_query query.

(** [write(write)] with no validator. *)
Definition write (write : string) : M unit := bus_write write None.

End Command.

(** ** class Common *)

Module Common.
Import Visa Exec.

Definition sre (reg_value : option Z) : M (option reply) :=
  let query := "*SRE?" in
  let write := "*SRE" in
  Command.read_write query write (Some ValidateRegister.register_8) reg_value.

Definition wait : M unit :=
  let write := "*WAI" in
  Command.write write.

End Common.

(** ** class Trigger *)

Module Trigger.
Import Visa Exec.

Definition generate_bus_trig : M unit :=
  let write := "TRIG:ACQ" in
  Command.write write.

Definition initialize_meas_trig : M unit :=
  let write := "INIT:NAME ACQ" in
  Command.write write.

End Trigger.

(** ** class Status *)

Module Status.
Import Visa Exec.

Definition get_opr_event_reg : M reply :=
  let query := "STAT:OPER?" in
  Command.read query.

Definition opr_enable_reg (reg_value : option Z) : M (option reply) :=
  let query := ":STAT:OPER:ENAB?" in
  let write := ":STAT:OPER:ENAB" in
  Command.read_write query write (Some ValidateRegister.register_16) reg_value.

Definition opr_ptr_reg (reg_value : option Z) : M (option reply) :=
  let query := ":STAT:OPER:PTR?" in
  let write := ":STAT:OPER:PTR" in
  Command.read_write query write (Some ValidateRegister.register_16) reg_value.

Definition opr_ntr_reg (reg_value : option Z) : M (option reply) :=
  let query := ":STAT:OPER:NTR?" in
  let write := ":STAT:OPER:NTR" in
  Command.read_write query write (Some ValidateRegister.register_16) reg_value.

End Status.

(** ** class Log *)

Module Log.
Import Visa Exec.

Section WithNumpy.

(** [np.array(fields, dtype='f')]: the float32 array of the fields,
    or [None] when a field is not a number and numpy raises. *)
Variable np_array_f : list string -> option Np.ndarray.

Definition fetch_array (q key : string) : M unit :=
  data ← bus_query q;
  arr ← of_option (np_array_f (Py.split_comma (reply_text data)))
                  (Py.ValueError "could not convert string to float");
  set_log_data_item key arr.

Definition start_meas_sample (bus_triggered : bool) : M unit :=
  set_log_data ∅;;
  (* Clear operational event status register *)
  Status.get_opr_event_reg;;
  (* Save the operational ptr/ntr/enable registers *)
  opr_ptr_reg ← Status.opr_ptr_reg None ≫= int;
  opr_ntr_reg ← Status.opr_ntr_reg None ≫= int;
  opr_enable_reg ← Status.opr_enable_reg None ≫= int;
  let wait_for_trig := 32 in
  let sre_status_bit := 128 in
  (* Remove 'WTG' bit from PTR if present *)
  (if Py.truthy (Z.land opr_ptr_reg wait_for_trig)
   then Status.opr_ptr_reg (Some (opr_ptr_reg - wait_for_trig));; mret tt
   else mret tt);;
  (* Add 'WTG' bit to NTR if not present *)
  (if negb (Py.truthy (Z.land opr_ntr_reg wait_for_trig))
   then Status.opr_ntr_reg (Some (opr_ntr_reg + wait_for_trig));; mret tt
   else mret tt);;
  (* Set enable bit for WTG *)
  Status.opr_enable_reg (Some wait_for_trig);;
  (* Enable service request for operation bit (OPR) *)
  Common.sre (Some sre_status_bit);;
  Common.wait;;
  (* Initialize measurement trigger *)
  Trigger.initialize_meas_trig;;
  (if bus_triggered then Trigger.generate_bus_trig else mret tt);;
  (* Wait for SRQ *)
  wait_for_srq 10000;;
  Common.sre (Some 0);;
  event_reg ← (r ← Status.get_opr_event_reg; int (Some r));
  (if Py.truthy (Z.land event_reg wait_for_trig) then
     sense ← get trig_sense;
     (if Py.str_in sense (Py.quoted "CURR") then
        fetch_array "FETC:ARR:CURR?" "current"
      else if Py.str_in sense (Py.quoted "VOLT") then
        fetch_array "FETC:ARR:VOLT?" "voltage"
      else
        fetch_array "FETC:ARR:DVM?" "voltage");;
     t ← get integration_time;
     n ← get sample_points;
     secs ← of_option (Np.arange 0 (t * n) t)
                      (Py.ValueError "arange: cannot compute length");
     set_log_data_item "seconds" (Np.float64 secs)
   else
     print ("Unknown error: event reg " +:+ Py.str event_reg));;
  (* Restore Registers *)
  Status.opr_ptr_reg (Some opr_ptr_reg);;
  Status.opr_ntr_reg (Some opr_ntr_reg);;
  Status.opr_enable_reg (Some opr_enable_reg);;
  mret tt.

End WithNumpy.

End Log.


(** * Properties *)

(** ** Shapes of a run's trace

    The pieces below name the groups of events a run of
    [Log.start_meas_sample] emits; the lemmas of the next part show that
    the code emits exactly these. *)

Module Shape.
Import Visa Exec.

(** What a call [opr_xxx_reg(v)] of a register accessor emits: the SCPI
    write when [register_16] accepts [v], the printed warning otherwise. *)
Definition accessor_events (hdr : string) (v : Z) : list event :=
  match ValidateRegister.register_16 v with
  | inl _ => [BusWrite hdr (Some v)]
  | inr e => [Print (Validate.error_text "WARNING" e)]
  end.

(** Clearing the event register and reading the three registers. *)
Definition snapshot_events : list event :=
  [BusQuery "STAT:OPER?"; BusQuery ":STAT:OPER:PTR?";
   BusQuery ":STAT:OPER:NTR?"; BusQuery ":STAT:OPER:ENAB?"].

(** Moving the wait-for-trigger bit from the positive to the negative
    transition filter. *)
Definition edge_events (ptr ntr : Z) : list event :=
  (if Py.truthy (Z.land ptr 32) then accessor_events hdr_ptr (ptr - 32) else [])
  ++ (if negb (Py.truthy (Z.land ntr 32))
      then accessor_events hdr_ntr (ntr + 32) else []).

(** From the service-request enable to the wait for the request. *)
Definition arm_events (bus_triggered : bool) : list event :=
  [BusWrite "*SRE" (Some 128); BusWrite "*WAI" None;
   BusWrite "INIT:NAME ACQ" None]
  ++ (if bus_triggered then [BusWrite "TRIG:ACQ" None] else [])
  ++ [WaitSRQ 10000].

(** The three accessor calls that write the saved values back. *)
Definition restore_events (ptr ntr enab : Z) : list event :=
  accessor_events hdr_ptr ptr ++ accessor_events hdr_ntr ntr
  ++ accessor_events hdr_enab enab.

(** Everything up to and including the wait. *)
Definition head_events (d : Instrument) (bus_triggered : bool) : list event :=
  snapshot_events ++ edge_events (opr_ptr d) (opr_ntr d)
  ++ BusWrite hdr_enab (Some 32) :: arm_events bus_triggered.

(** After the wait: service request off, event register read. *)
Definition wake_events : list event :=
  [BusWrite "*SRE" (Some 0); BusQuery "STAT:OPER?"].

(** The value the event register gives on its second read, the one after
    the wait. *)
Definition event_after_wait (d : Instrument) : Z := hd 0 (tl (opr_events d)).

(** Whether the wait-for-trigger bit is set in that value. *)
Definition trigger_fired (d : Instrument) : bool :=
  Py.truthy (Z.land (event_after_wait d) 32).

(** The fetch query and the result key chosen for a sense value. *)
Definition fetch_choice (sense : string) : string * string :=
  if Py.str_in sense (Py.quoted "CURR") then ("FETC:ARR:CURR?", "current")
  else if Py.str_in sense (Py.quoted "VOLT") then ("FETC:ARR:VOLT?", "voltage")
  else ("FETC:ARR:DVM?", "voltage").

(** Whether [register_16] lets a value through. *)
Definition accepted (v : Z) : bool :=
  match ValidateRegister.register_16 v with inl _ => true | inr _ => false end.

(** The three registers once the edge filters and the enable mask are set. *)
Definition armed_registers (ptr ntr : Z) : Z * Z * Z :=
  (if Py.truthy (Z.land ptr 32) && accepted (ptr - 32) then ptr - 32 else ptr,
   if negb (Py.truthy (Z.land ntr 32)) && accepted (ntr + 32)
   then ntr + 32 else ntr,
   32).

(** The three registers after the accessor calls of the restoration. *)
Definition restored_registers (ptr ntr enab : Z) : Z * Z * Z :=
  (if accepted ptr then ptr else (armed_registers ptr ntr).1.1,
   if accepted ntr then ntr else (armed_registers ptr ntr).1.2,
   if accepted enab then enab else 32).

(** The part of a trace before the first write to the enable register. *)
(** An event is a write to the register with header [hdr]. *)
Definition writes_to (hdr : string) (e : event) : bool :=
  match e with
  | BusWrite h (Some _) => String.eqb h hdr
  | _ => false
  end.

(** The part of a trace before the first write to the enable register. *)
Fixpoint before_enable_write (tr : list event) : list event :=
  match tr with
  | [] => []
  | e :: tr' => if writes_to hdr_enab e then [] else e :: before_enable_write tr'
  end.

End Shape.

(** ** Symbolic execution of driver code *)

Module WP.
Import Visa Exec Shape.

(** [wp m s Q]: the run of [m] from [s] satisfies [Q]. *)
Definition wp {A} (m : M A) (s : LogObj) (Q : Run A -> Prop) : Prop := Q (m s).

(** The instrument state of a run is its trace replayed. *)
Definition tracks {A} (m : M A) : Prop :=
  forall s, bus (final (m s)) = replay (bus s) (trace (m s)).

End WP.

(** ** Concrete instruments and settings *)

Module Fixture.
Import Visa Exec.

(** A stand-in for [np.array(fields, dtype='f')] that accepts every list
    of fields, and one that refuses every list. *)
Definition np_accept (fields : list string) : option Np.ndarray :=
  Some (Np.float32 (map (fun _ => 0%float) fields)).

Definition np_refuse (fields : list string) : option Np.ndarray := None.

(** An instrument with given registers, event-register script and
    service-request behaviour; it answers every fetch with three samples. *)
Definition instrument (ptr ntr enab : Z) (events : list Z) (srq : bool)
  : Instrument :=
  mkInstrument ptr ntr enab 0 events srq (fun _ => "1.0,2.5,-3.25").

(** A [Log] object on that instrument, with an empty [log_data]. *)
Definition log (d : Instrument) (sense : string) (t n : float) : LogObj :=
  mkLog d ∅ sense t n.

(** The end-to-end scenario: sense CURR, registers (32, 0, 0), the
    trigger fires, 5 samples at 2 ms. *)
Definition scenario : LogObj :=
  log (instrument 32 0 0 [0; 32] true) (Py.quoted "CURR") 0.002 5.

(** The same with an event register that stays clear after the wait. *)
Definition scenario_unexpected : LogObj :=
  log (instrument 32 0 0 [0; 0] true) (Py.quoted "CURR") 0.002 5.

(** The same with a service request that never arrives. *)
Definition scenario_timeout : LogObj :=
  log (instrument 32 0 0 [0; 32] false) (Py.quoted "CURR") 0.002 5.

(** An enable register holding a value with bit 15 set. *)
Definition scenario_enable_high : LogObj :=
  log (instrument 32 0 40000 [0; 32] true) (Py.quoted "CURR") 0.002 5.

(** 253 samples at the shortest integration time, 15.6 microseconds. *)
Definition scenario_253 : LogObj :=
  log (instrument 32 0 0 [0; 32] true) (Py.quoted "CURR") 1.56e-05 253.

End Fixture.


(** * The other accessors

    The part of the driver outside the acquisition sequence: the
    validators on strings and on integers with named limits, the full
    [Command.read_write] with its settings dictionary, and accessors built
    on them. Values are Python [int] and [str] objects and [None]; float
    arguments are left out. *)

(** ** Python text built-ins *)

Module PyText.

(** An argument of an accessor. *)
Inductive value : Type :=
| Int (z : Z)
| Str (s : string)
| NoneV.

(** [str(v)] *)
Definition str (v : value) : string :=
  match v with
  | Int z => Py.str z
  | Str s => s
  | NoneV => "None"
  end.

(** [type(v)] as [format] prints it. *)
Definition type_repr (v : value) : string :=
  match v with
  | Int _ => "<class 'int'>"
  | Str _ => "<class 'str'>"
  | NoneV => "<class 'NoneType'>"
  end.

Definition is_upper (c : ascii) : bool :=
  (65 <=? N_of_ascii c)%N && (N_of_ascii c <=? 90)%N.

Definition is_lower (c : ascii) : bool :=
  (97 <=? N_of_ascii c)%N && (N_of_ascii c <=? 122)%N.

Definition lower_char (c : ascii) : ascii :=
  if is_upper c then ascii_of_N (N_of_ascii c + 32) else c.

Definition upper_char (c : ascii) : ascii :=
  if is_lower c then ascii_of_N (N_of_ascii c - 32) else c.

(** [s.lower()] and [s.upper()] on ASCII text (see [is_ascii]): the
    letters A-Z and a-z change case, every other character stays. *)
Fixpoint lower (s : string) : string :=
  match s with
  | EmptyString => EmptyString
  | String c s' => String (lower_char c) (lower s')
  end.

Fixpoint upper (s : string) : string :=
  match s with
  | EmptyString => EmptyString
  | String c s' => String (upper_char c) (upper s')
  end.

(** Every character of the text is below 128. *)
Fixpoint is_ascii (s : string) : bool :=
  match s with
  | EmptyString => true
  | String c s' => (N_of_ascii c <? 128)%N && is_ascii s'
  end.

(** A text of letters and digits only: its [repr] is the text between
    single quotes. Every element of the validation sets of the driver is
    one. *)
Definition is_alnum (c : ascii) : bool :=
  is_upper c || is_lower c
  || ((48 <=? N_of_ascii c)%N && (N_of_ascii c <=? 57)%N).

Fixpoint plain (s : string) : bool :=
  match s with
  | EmptyString => true
  | String c s' => is_alnum c && plain s'
  end.

(** [repr(s)] of a plain text. *)
Definition repr_str (s : string) : string := "'" +:+ s +:+ "'".

(** [sep.join(l)] *)
Fixpoint join (sep : string) (l : list string) : string :=
  match l with
  | [] => EmptyString
  | [a] => a
  | a :: l' => a +:+ sep +:+ join sep l'
  end.

(** [str(t)] of a tuple of plain texts: [()], [('a',)], [('a', 'b')]. *)
Definition str_tuple_repr (t : list string) : string :=
  match t with
  | [] => "()"
  | [a] => "(" +:+ repr_str a +:+ ",)"
  | _ => "(" +:+ join ", " (map repr_str t) +:+ ")"
  end.

(** [str(val)] of what a validator returned: the text, or the message of
    the error object. *)
Definition str_validated (val : string + Py.error_object) : string :=
  match val with
  | inl txt => txt
  | inr err => Py.error_str err
  end.

End PyText.

(** ** class Validate, the validators on [str] *)

Module ValidateText.
Import PyText.

(** [find_element]: [x in y], here on two [str]. *)
Definition find_element (x y : string) : bool := Py.str_in x y.

(** [str_tuple(validation_set, value)] *)
Definition str_tuple (validation_set : list string) (value : value)
  : string + Py.error_object :=
  match value with
  | Str s =>
      let val := lower s in
      if find_element val (lower (str_tuple_repr validation_set))
      then inl (upper val)
      else inr (Py.ValueError_obj
                  ("ValueError!" +:+ Py.nl +:+ "Not in set:(str) "
                   +:+ str_tuple_repr validation_set))
  | _ =>
      inr (Py.TypeError_obj
             ("TypeError!" +:+ Py.nl +:+ "Received type: "
              +:+ type_repr value +:+ Py.nl +:+ "Valid types: "
              +:+ "<class 'str'>"))
  end.

(** [int_rng_and_str_tuples(validation_set, value)], the set being a
    range of [int] and a tuple of [str]. *)
Definition int_rng_and_str_tuples
    (validation_set : (Z * Z) * list string) (value : value)
  : string + Py.error_object :=
  match value with
  | Int z =>
      if Validate.int_range z (fst validation_set) then inl (str value)
      else inr (Py.ValueError_obj
                  ("ValueError!" +:+ Py.nl +:+ "Not in range:(int) "
                   +:+ Py.str_pair (fst validation_set) +:+ Py.nl
                   +:+ "or in set:(str) "
                   +:+ str_tuple_repr (snd validation_set)))
  | Str s =>
      let val := lower s in
      if find_element val (lower (str_tuple_repr (snd validation_set)))
      then inl (upper val)
      else inr (Py.ValueError_obj
                  ("ValueError!" +:+ Py.nl +:+ "Not in set:(str) "
                   +:+ str_tuple_repr (snd validation_set) +:+ Py.nl
                   +:+ "or in range:(int) "
                   +:+ Py.str_pair (fst validation_set)))
  | NoneV =>
      inr (Py.TypeError_obj
             ("TypeError!" +:+ Py.nl +:+ "Received type: "
              +:+ type_repr value +:+ Py.nl +:+ "Valid types: "
              +:+ "<class 'int'>, <class 'str'>"))
  end.

(** [int_rng_tuple(validation_set, value)] on any argument. *)
Definition int_rng_tuple (validation_set : Z * Z) (value : value)
  : string + Py.error_object :=
  match value with
  | Int z => Validate.int_rng_tuple validation_set z
  | _ =>
      inr (Py.TypeError_obj
             ("TypeError!" +:+ Py.nl +:+ "Received type: "
              +:+ type_repr value +:+ Py.nl +:+ "Valid types: "
              +:+ "<class 'int'>"))
  end.

(** [ValidateRegister.register_8] *)
Definition register_8 (value : value) : string + Py.error_object :=
  let register_values := (0, 128) in
  int_rng_tuple register_values value.

(** [ValidateLog.sample_points] *)
Definition sample_points (value : value) : string + Py.error_object :=
  let sample_length_values := ((1, 4096), ["min"; "max"]) in
  int_rng_and_str_tuples sample_length_values value.

(** [ValidateTrigger.source], [sense] and [slope];
    [dvm] is [global_input_values['dvm']]. *)
Definition source (value : value) : string + Py.error_object :=
  let source_values := ["int"; "ext"; "bus"] in
  str_tuple source_values value.

Definition sense (dvm : bool) (value : value) : string + Py.error_object :=
  let sense_values :=
    if dvm then ["volt"; "curr"; "dvm"] else ["volt"; "curr"] in
  str_tuple sense_values value.

Definition slope (value : value) : string + Py.error_object :=
  let slope_values := ["pos"; "neg"; "eith"] in
  str_tuple slope_values value.

(** [ValidateFormat.data] *)
Definition data (value : value) : string + Py.error_object :=
  let data_values := ["ascii"; "asc"; "real"] in
  str_tuple data_values value.

End ValidateText.

(** ** class Command, with the settings dictionary *)

Module CommandDict.
Import Visa Exec PyText.

(** [self._bus.write(write + ' ' + str(value))]: an [int] goes out as
    header and number, a [str] as one text. *)
Definition send (write : string) (value : value) : M unit :=
  match value with
  | Int z => bus_write write (Some z)
  | _ => bus_write (write +:+ " " +:+ str value) None
  end.

(** [read_write(query, write, validator, value, value_dict, value_key)].
    The dictionary is the caller's object, changed in place: the run
    returns it as it is afterwards, next to what Python returns. *)
Definition read_write (query write : string)
    (validator : option (value -> string + Py.error_object))
    (value : value) (value_dict : option (gmap string reply))
    (value_key : string)
  : M (option reply * option (gmap string reply)) :=
  match value with
  | NoneV => r ← bus_query query; mret (Some r, value_dict)
  | _ =>
      let write_and_refresh : M (option reply * option (gmap string reply)) :=
        send write value;;
        match value_dict with
        | Some d => r ← bus_query query;
                    mret (None, Some (<[value_key := r]> d))
        | None => mret (None, None)
        end in
      match validator with
      | Some validate =>
          match validate value with
          | inr val =>
              print (Validate.error_text "WARNING" val);;
              mret (None, value_dict)
          | inl _ => write_and_refresh
          end
      | None => write_and_refresh
      end
  end.

End CommandDict.

(** ** Accessors of Common, Log, Format and Trigger *)

Module Accessors.
Import Visa Exec PyText.

(** [Common.ese] *)
Definition Common_ese (reg_value : value)
  : M (option reply * option (gmap string reply)) :=
  let query := "*ESE?" in
  let write := "*ESE" in
  CommandDict.read_write query write (Some ValidateText.register_8)
    reg_value None EmptyString.

(** [Log.sample_points]; [_log] is [self._log]. *)
Definition Log_sample_points (_log : gmap string reply)
    (set_sample_points : value)
  : M (option reply * option (gmap string reply)) :=
  let query := "SENS:SWE:POIN?" in
  let write := "SENS:SWE:POIN" in
  CommandDict.read_write query write (Some ValidateText.sample_points)
    set_sample_points (Some _log) "sample_points".

(** [Format.data_format]; [_format] is [self._format]. *)
Definition Format_data_format (_format : gmap string reply)
    (set_data_format : value)
  : M (option reply * option (gmap string reply)) :=
  let query := ":FORM:DATA?" in
  let write := ":FORM:DATA" in
  CommandDict.read_write query write (Some ValidateText.data)
    set_data_format (Some _format) "data_format".

(** [Trigger.source]; [_trig] is [self._trig]. *)
Definition Trigger_source (_trig : gmap string reply) (set_source : value)
  : M (option reply * option (gmap string reply)) :=
  let query := "TRIG:ACQ:SOUR?" in
  let write := "TRIG:ACQ:SOUR" in
  CommandDict.read_write query write (Some ValidateText.source)
    set_source (Some _trig) "source".

(** [Trigger.sense]: the validator's result goes into the message as it
    is, text or error; the reply to the query is stored under
    ['settings']. The run returns what Python returns and [self._trig]
    afterwards. *)
Definition Trigger_sense (dvm : bool) (_trig : gmap string reply)
    (set_sense : value) : M (option reply * gmap string reply) :=
  let val := ValidateText.sense dvm set_sense in
  let query := "SENS:FUNC?" in
  let write :=
    "SENS:FUNC " +:+ String Py.dquote (str_validated val)
    +:+ String Py.dquote EmptyString in
  match set_sense with
  | NoneV => r ← Command.read query; mret (Some r, _trig)
  | _ =>
      Command.write write;;
      r ← Command.read query;
      mret (None, <["settings" := r]> _trig)
  end.

End Accessors.


Import Visa Exec Shape WP.

(** ** Rules for symbolic execution *)

Lemma wp_bind {A B} (m : M A) (k : A -> M B) s (Q : Run B -> Prop) :
  wp m s (fun r1 =>
    match result r1 with
    | Ret a => wp (k a) (final r1)
                 (fun r2 => Q (mkRun (trace r1 ++ trace r2) (result r2) (final r2)))
    | Raise e => Q (mkRun (trace r1) (Raise e) (final r1))
    end) ->
  wp (m ≫= k) s Q.
Proof.
  unfold wp, mbind, M_bind, bind.
  destruct (m s) as [t [a|e] s1]; simpl; [|done].
  by destruct (k a s1).
Qed.

Lemma wp_ret {A} (a : A) s (Q : Run A -> Prop) :
  Q (mkRun [] (Ret a) s) -> wp (mret a) s Q.
Proof. done. Qed.

Lemma wp_raise {A} e s (Q : Run A -> Prop) :
  Q (mkRun [] (Raise e) s) -> wp (raise e) s Q.
Proof. done. Qed.

Lemma wp_bus_query q s (Q : Run reply -> Prop) :
  Q (mkRun [BusQuery q] (Ret (dev_reply q (bus s)))
           (with_bus (dev_step (BusQuery q) (bus s)) s)) ->
  wp (bus_query q) s Q.
Proof. done. Qed.

Lemma wp_bus_write h a s (Q : Run unit -> Prop) :
  Q (mkRun [BusWrite h a] (Ret tt)
           (with_bus (dev_step (BusWrite h a) (bus s)) s)) ->
  wp (bus_write h a) s Q.
Proof. done. Qed.

Lemma wp_wait_for_srq ms s (Q : Run unit -> Prop) :
  Q (mkRun [WaitSRQ ms]
           (if srq_raised (bus s) then Ret tt else Raise Py.VisaIOError_timeout)
           s) ->
  wp (wait_for_srq ms) s Q.
Proof. done. Qed.

Lemma wp_print text s (Q : Run unit -> Prop) :
  Q (mkRun [Print text] (Ret tt) s) -> wp (print text) s Q.
Proof. done. Qed.

Lemma wp_get {A} (f : LogObj -> A) s (Q : Run A -> Prop) :
  Q (mkRun [] (Ret (f s)) s) -> wp (get f) s Q.
Proof. done. Qed.

Lemma wp_set_log_data m s (Q : Run unit -> Prop) :
  Q (mkRun [] (Ret tt) (with_log_data m s)) -> wp (set_log_data m) s Q.
Proof. done. Qed.

Lemma wp_set_log_data_item k v s (Q : Run unit -> Prop) :
  Q (mkRun [] (Ret tt) (with_log_data (<[k := v]> (log_data s)) s)) ->
  wp (set_log_data_item k v) s Q.
Proof. done. Qed.

(** The accessor as a getter. *)
Lemma wp_read_write_get q w val s (Q : Run (option reply) -> Prop) :
  Q (mkRun [BusQuery q] (Ret (Some (dev_reply q (bus s))))
           (with_bus (dev_step (BusQuery q) (bus s)) s)) ->
  wp (Command.read_write q w val None) s Q.
Proof. done. Qed.

(** The accessor as a setter, value accepted. *)
Lemma wp_read_write_ok q w validate v txt s (Q : Run (option reply) -> Prop) :
  validate v = inl txt ->
  Q (mkRun [BusWrite w (Some v)] (Ret None)
           (with_bus (dev_step (BusWrite w (Some v)) (bus s)) s)) ->
  wp (Command.read_write q w (Some validate) (Some v)) s Q.
Proof. unfold wp, Command.read_write. intros ->. done. Qed.

(** The accessor as a setter, value refused: a warning and no write. *)
Lemma wp_read_write_refused q w validate v err s (Q : Run (option reply) -> Prop) :
  validate v = inr err ->
  Q (mkRun [Print (Validate.error_text "WARNING" err)] (Ret None) s) ->
  wp (Command.read_write q w (Some validate) (Some v)) s Q.
Proof. unfold wp, Command.read_write. intros ->. done. Qed.


Lemma wp_int_nr1 z s (Q : Run Z -> Prop) :
  Q (mkRun [] (Ret z) s) -> wp (int (Some (NR1 z))) s Q.
Proof. done. Qed.

Lemma wp_of_option_some {A} (a : A) e s (Q : Run A -> Prop) :
  Q (mkRun [] (Ret a) s) -> wp (of_option (Some a) e) s Q.
Proof. done. Qed.

Lemma wp_of_option_none {A} e s (Q : Run A -> Prop) :
  Q (mkRun [] (Raise e) s) -> wp (of_option None e) s Q.
Proof. done. Qed.

(** The register accessors as setters, in closed form: the events are
    [accessor_events], and the register holds the value when it was
    accepted. *)
Lemma wp_opr_ptr_reg_set v s (Q : Run (option reply) -> Prop) :
  Q (mkRun (accessor_events hdr_ptr v) (Ret None)
       (with_bus (mkInstrument
                    (if accepted v then v else opr_ptr (bus s))
                    (opr_ntr (bus s)) (opr_enab (bus s)) (sre (bus s))
                    (opr_events (bus s)) (srq_raised (bus s))
                    (fetch_reply (bus s))) s)) ->
  wp (Status.opr_ptr_reg (Some v)) s Q.
Proof.
  unfold wp, Status.opr_ptr_reg, Command.read_write, accessor_events, accepted.
  destruct (ValidateRegister.register_16 v); [done|]. by destruct s as [[]].
Qed.

Lemma wp_opr_ntr_reg_set v s (Q : Run (option reply) -> Prop) :
  Q (mkRun (accessor_events hdr_ntr v) (Ret None)
       (with_bus (mkInstrument
                    (opr_ptr (bus s))
                    (if accepted v then v else opr_ntr (bus s))
                    (opr_enab (bus s)) (sre (bus s))
                    (opr_events (bus s)) (srq_raised (bus s))
                    (fetch_reply (bus s))) s)) ->
  wp (Status.opr_ntr_reg (Some v)) s Q.
Proof.
  unfold wp, Status.opr_ntr_reg, Command.read_write, accessor_events, accepted.
  destruct (ValidateRegister.register_16 v); [done|]. by destruct s as [[]].
Qed.

Lemma wp_opr_enable_reg_set v s (Q : Run (option reply) -> Prop) :
  Q (mkRun (accessor_events hdr_enab v) (Ret None)
       (with_bus (mkInstrument
                    (opr_ptr (bus s)) (opr_ntr (bus s))
                    (if accepted v then v else opr_enab (bus s))
                    (sre (bus s))
                    (opr_events (bus s)) (srq_raised (bus s))
                    (fetch_reply (bus s))) s)) ->
  wp (Status.opr_enable_reg (Some v)) s Q.
Proof.
  unfold wp, Status.opr_enable_reg, Command.read_write, accessor_events, accepted.
  destruct (ValidateRegister.register_16 v); [done|]. by destruct s as [[]].
Qed.

(** A guarded call [if c: accessor(v)], in closed form. *)
Lemma wp_guarded (c : bool) (acc : M (option reply)) evs f s (Q : Run unit -> Prop) :
  (forall Q', Q' (mkRun evs (Ret None) (with_bus (f true) s)) -> wp acc s Q') ->
  f false = bus s ->
  Q (mkRun (if c then evs else []) (Ret tt) (with_bus (f c) s)) ->
  wp (if c then acc ≫= (fun _ => mret tt) else mret tt) s Q.
Proof.
  intros Hacc Hf. destruct c.
  - intros H. apply wp_bind, Hacc. cbn [result final trace].
    apply wp_ret. cbn [result final trace]. by rewrite List.app_nil_r.
  - rewrite Hf. by destruct s.
Qed.

Lemma wp_guarded_ptr (c : bool) v s (Q : Run unit -> Prop) :
  Q (mkRun (if c then accessor_events hdr_ptr v else []) (Ret tt)
       (with_bus (mkInstrument
                    (if c && accepted v then v else opr_ptr (bus s))
                    (opr_ntr (bus s)) (opr_enab (bus s)) (sre (bus s))
                    (opr_events (bus s)) (srq_raised (bus s))
                    (fetch_reply (bus s))) s)) ->
  wp (if c then Status.opr_ptr_reg (Some v) ≫= (fun _ => mret tt)
      else mret tt) s Q.
Proof.
  apply (wp_guarded c _ _ (fun c => mkInstrument
                    (if c && accepted v then v else opr_ptr (bus s))
                    (opr_ntr (bus s)) (opr_enab (bus s)) (sre (bus s))
                    (opr_events (bus s)) (srq_raised (bus s))
                    (fetch_reply (bus s)))).
  - intros Q'. apply wp_opr_ptr_reg_set.
  - by destruct s as [[]].
Qed.

Lemma wp_guarded_ntr (c : bool) v s (Q : Run unit -> Prop) :
  Q (mkRun (if c then accessor_events hdr_ntr v else []) (Ret tt)
       (with_bus (mkInstrument
                    (opr_ptr (bus s))
                    (if c && accepted v then v else opr_ntr (bus s))
                    (opr_enab (bus s)) (sre (bus s))
                    (opr_events (bus s)) (srq_raised (bus s))
                    (fetch_reply (bus s))) s)) ->
  wp (if c then Status.opr_ntr_reg (Some v) ≫= (fun _ => mret tt)
      else mret tt) s Q.
Proof.
  apply (wp_guarded c _ _ (fun c => mkInstrument
                    (opr_ptr (bus s))
                    (if c && accepted v then v else opr_ntr (bus s))
                    (opr_enab (bus s)) (sre (bus s))
                    (opr_events (bus s)) (srq_raised (bus s))
                    (fetch_reply (bus s)))).
  - intros Q'. apply wp_opr_ntr_reg_set.
  - by destruct s as [[]].
Qed.

(** The constant at the head of an application. *)
Ltac head_const t := lazymatch t with ?f _ => head_const f | _ => t end.

(** Compute the run record and the instrument after a step. *)
Ltac wp_simpl :=
  cbv beta iota delta
    [result final trace bus log_data trig_sense integration_time
     sample_points with_bus with_log_data dev_reply dev_step
     opr_ptr opr_ntr opr_enab sre opr_events srq_raised fetch_reply
     String.eqb Ascii.eqb Bool.eqb hdr_ptr hdr_ntr hdr_enab hdr_sre
     reply_text].

(** One step of the code under [wp]: the rule of its head construct; a
    test whose value is not known splits the goal. *)
Ltac wp_step :=
  lazymatch goal with
  | |- wp (_ ≫= _) _ _ => apply wp_bind
  | |- wp (mret _) _ _ => apply wp_ret; wp_simpl
  | |- wp (ret _) _ _ => apply (wp_ret (A:=_)); wp_simpl
  | |- wp (raise _) _ _ => apply wp_raise; wp_simpl
  | |- wp (int (Some (NR1 _))) _ _ => apply wp_int_nr1; wp_simpl
  | |- wp (bus_query _) _ _ => apply wp_bus_query; wp_simpl
  | |- wp (bus_write _ _) _ _ => apply wp_bus_write; wp_simpl
  | |- wp (wait_for_srq _) _ _ => apply wp_wait_for_srq; wp_simpl
  | |- wp (print _) _ _ => apply wp_print; wp_simpl
  | |- wp (get _) _ _ => apply wp_get; wp_simpl
  | |- wp (set_log_data _) _ _ => apply wp_set_log_data; wp_simpl
  | |- wp (set_log_data_item _ _) _ _ => apply wp_set_log_data_item; wp_simpl
  | |- wp (of_option (Some _) _) _ _ => apply wp_of_option_some; wp_simpl
  | |- wp (of_option None _) _ _ => apply wp_of_option_none; wp_simpl
  | |- wp (of_option ?c _) _ _ =>
      first [ match goal with H : c = _ |- _ => rewrite H end
            | let E := fresh "Ho" in destruct c eqn:E ]
  | |- wp (Status.opr_ptr_reg (Some _)) _ _ => apply wp_opr_ptr_reg_set; wp_simpl
  | |- wp (Status.opr_ntr_reg (Some _)) _ _ => apply wp_opr_ntr_reg_set; wp_simpl
  | |- wp (Status.opr_enable_reg (Some _)) _ _ =>
      apply wp_opr_enable_reg_set; wp_simpl
  | |- wp (if _ then Status.opr_ptr_reg (Some _) ≫= _ else mret tt) _ _ =>
      apply wp_guarded_ptr; wp_simpl
  | |- wp (if _ then Status.opr_ntr_reg (Some _) ≫= _ else mret tt) _ _ =>
      apply wp_guarded_ntr; wp_simpl
  | |- wp (Command.read_write _ _ _ None) _ _ => apply wp_read_write_get; wp_simpl
  | |- wp (Command.read_write _ _ (Some _) (Some _)) _ _ =>
      eapply wp_read_write_ok; [reflexivity |]; wp_simpl
  | |- wp (if ?c then _ else _) _ _ =>
      first [ match goal with H : c = _ |- _ => rewrite H end
            | let E := fresh "Hc" in destruct c eqn:E ]
  | |- wp ?m _ _ => let h := head_const m in unfold h at 1
  end.

Ltac wp_run := repeat wp_step.

(** Start symbolic execution of the run the goal talks about. *)
Ltac wp_start :=
  unfold head_events, wake_events, edge_events, restore_events, arm_events,
    snapshot_events, fetch_choice, trigger_fired, event_after_wait in *;
  cbn [bus opr_ptr opr_ntr opr_enab opr_events srq_raised fetch_reply
       trig_sense integration_time sample_points] in *;
  lazymatch goal with
  | |- context [Log.start_meas_sample ?np ?b ?s] =>
      pattern (Log.start_meas_sample np b s);
      lazymatch goal with
      | |- ?Q _ => change (wp (Log.start_meas_sample np b) s Q)
      end
  end.

(** Close a leaf: the emitted events against the expected shape. *)
Ltac wp_done :=
  cbv beta; intros; cbn [fst snd] in *;
  unfold armed_registers, restored_registers, registers;
  cbn [fst snd result final trace log_data bus negb andb
       opr_ptr opr_ntr opr_enab];
  rewrite <- ?List.app_assoc, ?List.app_nil_r; cbn [app];
  repeat split; try reflexivity; try congruence.

(** ** The five ways a run can go *)

Section Paths.
Variable np_array_f : list string -> option Np.ndarray.

(** The wait times out: the run stops there with the timeout error. *)
Lemma run_timeout b s :
  srq_raised (bus s) = false ->
  trace (Log.start_meas_sample np_array_f b s) = head_events (bus s) b
  /\ result (Log.start_meas_sample np_array_f b s)
     = Raise Py.VisaIOError_timeout
  /\ log_data (final (Log.start_meas_sample np_array_f b s)) = ∅
  /\ registers (bus (final (Log.start_meas_sample np_array_f b s)))
     = armed_registers (opr_ptr (bus s)) (opr_ntr (bus s)).
Proof.
  destruct s as [[ptr ntr enab sre evs srq fr] ld sense t n].
  cbn [bus srq_raised]. intros ->.
  wp_start. wp_run; wp_done.
Qed.

(** The request arrives but the wait-for-trigger bit is not in the event
    register: message, then restoration. *)
Lemma run_unexpected b s :
  srq_raised (bus s) = true ->
  trigger_fired (bus s) = false ->
  trace (Log.start_meas_sample np_array_f b s)
  = head_events (bus s) b ++ wake_events
    ++ [Print ("Unknown error: event reg "
               +:+ Py.str (event_after_wait (bus s)))]
    ++ restore_events (opr_ptr (bus s)) (opr_ntr (bus s)) (opr_enab (bus s))
  /\ result (Log.start_meas_sample np_array_f b s) = Ret tt
  /\ log_data (final (Log.start_meas_sample np_array_f b s)) = ∅
  /\ registers (bus (final (Log.start_meas_sample np_array_f b s)))
     = restored_registers (opr_ptr (bus s)) (opr_ntr (bus s))
                          (opr_enab (bus s)).
Proof.
  destruct s as [[ptr ntr enab sre evs srq fr] ld sense t n].
  cbn [bus srq_raised opr_events]. intros -> Hev.
  wp_start. wp_run; wp_done.
Qed.

(** The trigger fired and both arrays could be built. *)
Lemma run_data_ready b s arr secs :
  srq_raised (bus s) = true ->
  trigger_fired (bus s) = true ->
  np_array_f (Py.split_comma
                (fetch_reply (bus s) (fetch_choice (trig_sense s)).1))
  = Some arr ->
  Np.arange 0 (integration_time s * sample_points s) (integration_time s)
  = Some secs ->
  trace (Log.start_meas_sample np_array_f b s)
  = head_events (bus s) b ++ wake_events
    ++ [BusQuery (fetch_choice (trig_sense s)).1]
    ++ restore_events (opr_ptr (bus s)) (opr_ntr (bus s)) (opr_enab (bus s))
  /\ result (Log.start_meas_sample np_array_f b s) = Ret tt
  /\ log_data (final (Log.start_meas_sample np_array_f b s))
     = <["seconds" := Np.float64 secs]>
         (<[(fetch_choice (trig_sense s)).2 := arr]> ∅)
  /\ registers (bus (final (Log.start_meas_sample np_array_f b s)))
     = restored_registers (opr_ptr (bus s)) (opr_ntr (bus s))
                          (opr_enab (bus s)).
Proof.
  destruct s as [[ptr ntr enab sre evs srq fr] ld sense t n].
  cbn [bus srq_raised opr_events fetch_reply trig_sense integration_time
       sample_points].
  intros -> Hev Harr Hsecs. revert Harr.
  wp_start. wp_run; wp_done.
Qed.

(** The trigger fired but the fetched text is not an array of numbers:
    [np.array] raises, and the run ends before the restoration. *)
Lemma run_fetch_error b s :
  srq_raised (bus s) = true ->
  trigger_fired (bus s) = true ->
  np_array_f (Py.split_comma
                (fetch_reply (bus s) (fetch_choice (trig_sense s)).1))
  = None ->
  trace (Log.start_meas_sample np_array_f b s)
  = head_events (bus s) b ++ wake_events
    ++ [BusQuery (fetch_choice (trig_sense s)).1]
  /\ result (Log.start_meas_sample np_array_f b s)
     = Raise (Py.ValueError "could not convert string to float")
  /\ log_data (final (Log.start_meas_sample np_array_f b s)) = ∅.
Proof.
  destruct s as [[ptr ntr enab sre evs srq fr] ld sense t n].
  cbn [bus srq_raised opr_events fetch_reply trig_sense integration_time
       sample_points].
  intros -> Hev Harr. revert Harr.
  wp_start. wp_run; wp_done.
Qed.

(** The trigger fired, the data was fetched, but [np.arange] cannot
    compute a length: the run ends before the restoration. *)
Lemma run_arange_error b s arr :
  srq_raised (bus s) = true ->
  trigger_fired (bus s) = true ->
  np_array_f (Py.split_comma
                (fetch_reply (bus s) (fetch_choice (trig_sense s)).1))
  = Some arr ->
  Np.arange 0 (integration_time s * sample_points s) (integration_time s)
  = None ->
  trace (Log.start_meas_sample np_array_f b s)
  = head_events (bus s) b ++ wake_events
    ++ [BusQuery (fetch_choice (trig_sense s)).1]
  /\ result (Log.start_meas_sample np_array_f b s)
     = Raise (Py.ValueError "arange: cannot compute length")
  /\ log_data (final (Log.start_meas_sample np_array_f b s))
     = <[(fetch_choice (trig_sense s)).2 := arr]> ∅.
Proof.
  destruct s as [[ptr ntr enab sre evs srq fr] ld sense t n].
  cbn [bus srq_raised opr_events fetch_reply trig_sense integration_time
       sample_points].
  intros -> Hev Harr Hsecs. revert Harr.
  wp_start. wp_run; wp_done.
Qed.

End Paths.

(** ** Arithmetic of the wait-for-trigger bit and of the accepted range *)

Lemma accepted_spec v : accepted v = true <-> 0 <= v <= 32767.
Proof.
  unfold accepted, ValidateRegister.register_16, Validate.int_rng_tuple,
    Validate.int_range. cbn [fst snd].
  destruct (0 <=? v) eqn:H0; destruct (v <? 32767 + 1) eqn:H1; cbn [andb];
    split; intros; try discriminate; try reflexivity; lia.
Qed.

Lemma accepted_false v : accepted v = false <-> v < 0 \/ 32767 < v.
Proof.
  destruct (accepted v) eqn:H.
  - apply accepted_spec in H. split; [discriminate | lia].
  - split; [|reflexivity]. intros _.
    destruct (Z_lt_dec v 0); [lia|]. destruct (Z_lt_dec 32767 v); [lia|].
    assert (accepted v = true) by (apply accepted_spec; lia). congruence.
Qed.

Lemma land_32 x : Z.land x 32 = if Z.testbit x 5 then 32 else 0.
Proof.
  apply Z.bits_inj'. intros n Hn.
  rewrite Z.land_spec.
  change 32 with (2 ^ 5). rewrite Z.pow2_bits_eqb by lia.
  destruct (Z.eqb_spec 5 n) as [<-|Hne].
  - rewrite andb_true_r. destruct (Z.testbit x 5).
    + by rewrite Z.pow2_bits_true.
    + by rewrite Z.bits_0.
  - rewrite andb_false_r. destruct (Z.testbit x 5).
    + by rewrite Z.pow2_bits_false.
    + by rewrite Z.bits_0.
Qed.

Lemma truthy_land_32 x : Py.truthy (Z.land x 32) = Z.testbit x 5.
Proof. rewrite land_32. unfold Py.truthy. by destruct (Z.testbit x 5). Qed.

Lemma testbit_5 x : Z.testbit x 5 = ((x / 32) mod 2 =? 1).
Proof.
  destruct (Z.testbit x 5) eqn:H.
  - apply Z.testbit_true in H; [|lia]. change (2 ^ 5) with 32 in H.
    symmetry. by apply Z.eqb_eq.
  - symmetry. apply Z.eqb_neq. intros H1.
    assert (Z.testbit x 5 = true) by (apply Z.testbit_true; [lia|exact H1]).
    congruence.
Qed.

Lemma sub_32_clearbit x : Z.testbit x 5 = true -> x - 32 = Z.clearbit x 5.
Proof.
  intros H. rewrite Z.clearbit_spec'. change (2 ^ 5) with 32.
  apply Z.sub_nocarry_ldiff.
  apply Z.bits_inj'. intros n Hn.
  rewrite Z.ldiff_spec, Z.bits_0.
  change 32 with (2 ^ 5). rewrite Z.pow2_bits_eqb by lia.
  destruct (Z.eqb_spec 5 n) as [<-|Hne]; [by rewrite H | done].
Qed.

Lemma add_32_setbit x : Z.testbit x 5 = false -> x + 32 = Z.setbit x 5.
Proof.
  intros H. rewrite Z.setbit_spec'. change (2 ^ 5) with 32.
  rewrite <- Z.add_lor_land. rewrite land_32, H. lia.
Qed.

(** A value outside the accepted range that has the bit set stays outside
    when 32 is taken off; one that has it clear stays outside when 32 is
    added. *)
Lemma accepted_sub_32 x :
  Z.testbit x 5 = true -> accepted (x - 32) = true -> accepted x = true.
Proof.
  rewrite testbit_5, !accepted_spec. intros H%Z.eqb_eq Hr.
  destruct (Z_le_dec x 32767); [lia|].
  exfalso. assert (32768 <= x <= 32799) as Hx by lia.
  assert (x / 32 = 1024) as E by (symmetry; apply Z.div_unique with (x - 32768); lia).
  rewrite E in H. discriminate.
Qed.

Lemma accepted_add_32 x :
  Z.testbit x 5 = false -> accepted (x + 32) = true -> accepted x = true.
Proof.
  rewrite testbit_5, !accepted_spec. intros H%Z.eqb_neq Hr.
  destruct (Z_le_dec 0 x); [lia|].
  exfalso. apply H. assert (-32 <= x <= -1) as Hx by lia.
  assert (x / 32 = -1) as E by (symmetry; apply Z.div_unique with (x + 32); lia).
  rewrite E. reflexivity.
Qed.

Lemma restored_ptr ptr :
  (if accepted ptr then ptr
   else if Py.truthy (Z.land ptr 32) && accepted (ptr - 32)
        then ptr - 32 else ptr) = ptr.
Proof.
  rewrite truthy_land_32.
  destruct (accepted ptr) eqn:Hp; [done|].
  destruct (Z.testbit ptr 5) eqn:Hb; cbn [andb]; [|done].
  destruct (accepted (ptr - 32)) eqn:Hq; [|done].
  rewrite (accepted_sub_32 ptr Hb Hq) in Hp. discriminate.
Qed.

Lemma restored_ntr ntr :
  (if accepted ntr then ntr
   else if negb (Py.truthy (Z.land ntr 32)) && accepted (ntr + 32)
        then ntr + 32 else ntr) = ntr.
Proof.
  rewrite truthy_land_32.
  destruct (accepted ntr) eqn:Hp; [done|].
  destruct (Z.testbit ntr 5) eqn:Hb; cbn [andb negb]; [done|].
  destruct (accepted (ntr + 32)) eqn:Hq; [|done].
  rewrite (accepted_add_32 ntr Hb Hq) in Hp. discriminate.
Qed.

(** The restoration brings back the positive and negative transition
    registers whatever their values, and the enable register when its
    value is one the accessor accepts. *)
Lemma restored_registers_eq ptr ntr enab :
  restored_registers ptr ntr enab
  = (ptr, ntr, if accepted enab then enab else 32).
Proof.
  unfold restored_registers, armed_registers. cbn [fst snd].
  by rewrite restored_ptr, restored_ntr.
Qed.

(** ** Every run, whichever way it goes *)

Section Runs.
Variable np_array_f : list string -> option Np.ndarray.

Lemma accessor_events_no_other_write hdr hdr' v :
  String.eqb hdr hdr' = false ->
  Forall (fun e => writes_to hdr' e = false) (accessor_events hdr v).
Proof.
  intros H. unfold accessor_events.
  destruct (ValidateRegister.register_16 v); repeat constructor. exact H.
Qed.

Lemma arm_events_no_enable_write b :
  Forall (fun e => writes_to hdr_enab e = false) (arm_events b).
Proof. destruct b; repeat constructor. Qed.

(** Shape of every run: the head, then events that do not write the
    enable register, then the restoration when the run returns and
    nothing when it raises. *)
Lemma run_shape b s :
  exists tail post,
    trace (Log.start_meas_sample np_array_f b s)
    = head_events (bus s) b ++ tail ++ post
    /\ Forall (fun e => writes_to hdr_enab e = false) tail
    /\ ((result (Log.start_meas_sample np_array_f b s) = Ret tt
         /\ post = restore_events (opr_ptr (bus s)) (opr_ntr (bus s))
                                  (opr_enab (bus s))
         /\ registers (bus (final (Log.start_meas_sample np_array_f b s)))
            = restored_registers (opr_ptr (bus s)) (opr_ntr (bus s))
                                 (opr_enab (bus s)))
        \/ ((exists e, result (Log.start_meas_sample np_array_f b s) = Raise e)
            /\ post = [])).
Proof.
  destruct (srq_raised (bus s)) eqn:Hsrq.
  2:{ destruct (run_timeout np_array_f b s Hsrq) as (Ht & Hr & _).
      exists [], []. rewrite Ht, !List.app_nil_r.
      split; [done|]. split; [constructor|]. right. eauto. }
  destruct (trigger_fired (bus s)) eqn:Hev.
  2:{ destruct (run_unexpected np_array_f b s Hsrq Hev) as (Ht & Hr & _ & Hg).
      eexists (wake_events ++ [Print _]), _. rewrite Ht, <- !List.app_assoc.
      split; [reflexivity|]. split; [repeat constructor|]. left. eauto. }
  destruct (np_array_f (Py.split_comma
              (fetch_reply (bus s) (fetch_choice (trig_sense s)).1)))
    as [arr|] eqn:Harr.
  2:{ destruct (run_fetch_error np_array_f b s Hsrq Hev Harr) as (Ht & Hr & _).
      eexists (wake_events ++ [BusQuery _]), []. rewrite Ht, List.app_nil_r.
      split; [reflexivity|]. split; [repeat constructor|]. right. eauto. }
  destruct (Np.arange 0 (integration_time s * sample_points s)
              (integration_time s)) as [secs|] eqn:Hsecs.
  2:{ destruct (run_arange_error np_array_f b s arr Hsrq Hev Harr Hsecs)
        as (Ht & Hr & _).
      eexists (wake_events ++ [BusQuery _]), []. rewrite Ht, List.app_nil_r.
      split; [reflexivity|]. split; [repeat constructor|]. right. eauto. }
  destruct (run_data_ready np_array_f b s arr secs Hsrq Hev Harr Hsecs)
    as (Ht & Hr & _ & Hg).
  eexists (wake_events ++ [BusQuery _]), _. rewrite Ht, <- !List.app_assoc.
  split; [reflexivity|]. split; [repeat constructor|]. left. eauto.
Qed.

End Runs.

(** ** What an accessor call emits *)

Lemma accessor_events_accepted hdr v :
  0 <= v <= 32767 -> accessor_events hdr v = [BusWrite hdr (Some v)].
Proof.
  intros H%accepted_spec. unfold accessor_events, accepted in *.
  by destruct (ValidateRegister.register_16 v).
Qed.

Lemma accessor_events_refused hdr v :
  v < 0 \/ 32767 < v ->
  exists msg, accessor_events hdr v = [Print msg].
Proof.
  intros H%accepted_false. unfold accessor_events, accepted in *.
  destruct (ValidateRegister.register_16 v); [discriminate | eauto].
Qed.

(** ** The instrument state follows the trace *)

Lemma replay_app d l1 l2 : replay d (l1 ++ l2) = replay (replay d l1) l2.
Proof. unfold replay. apply fold_left_app. Qed.

Lemma tracks_bind {A B} (m : M A) (k : A -> M B) :
  tracks m -> (forall a, tracks (k a)) -> tracks (m ≫= k).
Proof.
  intros Hm Hk s. unfold mbind, M_bind, bind. specialize (Hm s).
  destruct (m s) as [t [a|e] s1]; cbn [trace result final] in *; [|done].
  specialize (Hk a s1).
  destruct (k a s1) as [t' r' s2]; cbn [trace result final] in *.
  by rewrite replay_app, <- Hm.
Qed.

Lemma tracks_ret {A} (a : A) : tracks (mret a).
Proof. by intros s. Qed.

Lemma tracks_raise {A} e : tracks (raise (A:=A) e).
Proof. by intros s. Qed.

Lemma tracks_bus_query q : tracks (bus_query q).
Proof. by intros s. Qed.

Lemma tracks_bus_write h a : tracks (bus_write h a).
Proof. by intros s. Qed.

Lemma tracks_wait_for_srq ms : tracks (wait_for_srq ms).
Proof. by intros s. Qed.

Lemma tracks_print text : tracks (print text).
Proof. by intros s. Qed.

Lemma tracks_get {A} (f : LogObj -> A) : tracks (get f).
Proof. by intros s. Qed.

Lemma tracks_set_log_data m : tracks (set_log_data m).
Proof. by intros s. Qed.

Lemma tracks_set_log_data_item k v : tracks (set_log_data_item k v).
Proof. by intros s. Qed.

Lemma tracks_int x : tracks (int x).
Proof. destruct x as [[]|]; by intros ?. Qed.

Lemma tracks_of_option {A} (o : option A) e : tracks (of_option o e).
Proof. destruct o; by intros ?. Qed.

Lemma tracks_read_write q w val v : tracks (Command.read_write q w val v).
Proof.
  unfold Command.read_write. destruct v as [v|].
  - destruct val as [f|].
    + destruct (f v); apply tracks_bind; intros;
        auto using tracks_print, tracks_bus_write, tracks_ret.
    + apply tracks_bind; intros; auto using tracks_bus_write, tracks_ret.
  - apply tracks_bind; intros; auto using tracks_bus_query, tracks_ret.
Qed.

Ltac tracks_step :=
  lazymatch goal with
  | |- tracks (_ ≫= _) => apply tracks_bind; [| intros ?]
  | |- tracks (mret _) => apply tracks_ret
  | |- tracks (bus_query _) => apply tracks_bus_query
  | |- tracks (wait_for_srq _) => apply tracks_wait_for_srq
  | |- tracks (print _) => apply tracks_print
  | |- tracks (get _) => apply tracks_get
  | |- tracks (set_log_data _) => apply tracks_set_log_data
  | |- tracks (set_log_data_item _ _) => apply tracks_set_log_data_item
  | |- tracks (int _) => apply tracks_int
  | |- tracks (of_option _ _) => apply tracks_of_option
  | |- tracks (Command.read_write _ _ _ _) => apply tracks_read_write
  | |- tracks (Command.read _) => apply tracks_bus_query
  | |- tracks (Command.write _) => apply tracks_bus_write
  | |- tracks (if ?c then _ else _) => destruct c
  | |- tracks ?m => let h := head_const m in unfold h
  end.

(** At the end of every run the instrument is in the state the events of
    the trace lead to. *)
Lemma tracks_start_meas_sample np_array_f b :
  tracks (Log.start_meas_sample np_array_f b).
Proof. unfold Log.start_meas_sample. repeat tracks_step. Qed.

(** ** The enable register between two writes *)

Lemma dev_step_enable_frame e d :
  writes_to hdr_enab e = false -> opr_enab (dev_step e d) = opr_enab d.
Proof.
  destruct e as [h [v|]|q| |]; cbn [writes_to dev_step]; try done.
  - intros H. rewrite H.
    destruct (String.eqb h hdr_ptr); [done|].
    destruct (String.eqb h hdr_ntr); [done|].
    by destruct (String.eqb h hdr_sre).
  - intros _. by destruct (String.eqb q "STAT:OPER?").
Qed.

Lemma replay_enable_frame l d :
  Forall (fun e => writes_to hdr_enab e = false) l ->
  opr_enab (replay d l) = opr_enab d.
Proof.
  intros H. revert d. induction H as [|e l He _ IH]; intros d; [done|].
  cbn. change (opr_enab (replay (dev_step e d) l) = opr_enab d).
  by rewrite IH, dev_step_enable_frame.
Qed.

Lemma before_enable_write_app l1 v l2 :
  Forall (fun e => writes_to hdr_enab e = false) l1 ->
  before_enable_write (l1 ++ BusWrite hdr_enab (Some v) :: l2) = l1.
Proof.
  induction 1 as [|e l He _ IH]; [done|].
  cbn [app before_enable_write]. by rewrite He, IH.
Qed.

Lemma snapshot_edge_no_enable_write ptr ntr :
  Forall (fun e => writes_to hdr_enab e = false)
         (snapshot_events ++ edge_events ptr ntr).
Proof.
  apply Forall_app. split; [repeat constructor|].
  unfold edge_events. apply Forall_app. split.
  - destruct (Py.truthy _); [|constructor].
    by apply accessor_events_no_other_write.
  - destruct (negb _); [|constructor].
    by apply accessor_events_no_other_write.
Qed.

(** What precedes the first enable write of a run: the snapshot reads and
    the adjustment of the two edge filters. *)
Lemma before_enable_write_run np_array_f b s :
  before_enable_write (trace (Log.start_meas_sample np_array_f b s))
  = snapshot_events ++ edge_events (opr_ptr (bus s)) (opr_ntr (bus s)).
Proof.
  destruct (run_shape np_array_f b s) as (tail & post & -> & _).
  unfold head_events. rewrite <- !List.app_assoc, List.app_assoc.
  apply before_enable_write_app, snapshot_edge_no_enable_write.
Qed.

(** ** Python's [in] on strings *)

Lemma prefix_iff a b : String.prefix a b = true <-> exists q, b = a +:+ q.
Proof.
  revert b. induction a as [|c a IH]; intros [|c' b]; cbn.
  - split; [by exists EmptyString | done].
  - split; [by exists (String c' b) | done].
  - split; [done | by intros [q ?]].
  - destruct (ascii_dec c c') as [->|Hne].
    + rewrite IH. split; intros [q Hq]; exists q;
        [cbn; by rewrite Hq | cbn in Hq; by inversion Hq].
    + split; [done|]. intros [q Hq]. cbn in Hq. by inversion Hq.
Qed.

(** [str_in a b] holds exactly when [a] is a substring of [b]. *)
Lemma str_in_iff a b :
  Py.str_in a b = true <-> exists p q, b = p +:+ a +:+ q.
Proof.
  induction b as [|c b IH]; cbn [Py.str_in].
  - rewrite orb_false_r, prefix_iff. split.
    + intros [q Hq]. by exists EmptyString, q.
    + intros ([|c p] & q & Hq); [eauto | discriminate].
  - rewrite orb_true_iff, prefix_iff, IH. split.
    + intros [[q Hq] | (p & q & Hq)].
      * by exists EmptyString, q.
      * exists (String c p), q. cbn. by rewrite Hq.
    + intros ([|c' p] & q & Hq); [left; eauto | right].
      cbn in Hq. inversion Hq. eauto.
Qed.

(** ** The event register after the wait *)

Lemma trigger_fired_iff d :
  trigger_fired d = true <-> Z.land (event_after_wait d) 32 <> 0.
Proof.
  unfold trigger_fired, Py.truthy.
  destruct (Z.eqb_spec (Z.land (event_after_wait d) 32) 0) as [->|];
    cbn [negb]; split; done.
Qed.

Lemma trigger_not_fired_iff d :
  trigger_fired d = false <-> Z.land (event_after_wait d) 32 = 0.
Proof.
  unfold trigger_fired, Py.truthy.
  destruct (Z.eqb_spec (Z.land (event_after_wait d) 32) 0) as [->|];
    cbn [negb]; split; done.
Qed.

Lemma fetch_choice_curr sense :
  sense = "CURR" \/ sense = Py.quoted "CURR" ->
  fetch_choice sense = ("FETC:ARR:CURR?", "current").
Proof. by intros [-> | ->]. Qed.

(** * The claims *)

(** ** C1: register restoration *)

(** C1, as stated, fails: with an enable register that holds 40000 (bit 15
    set) the run returns normally, yet the enable register is left at 32:
    the accessor refuses to write 40000 back. *)
Lemma restore_enable_high_counterexample :
  let r := Log.start_meas_sample Fixture.np_accept false
             Fixture.scenario_enable_high in
  result r = Ret tt
  /\ registers (bus Fixture.scenario_enable_high) = (32, 0, 40000)
  /\ registers (bus (final r)) = (32, 0, 32)
  /\ registers (bus (final r)) <> registers (bus Fixture.scenario_enable_high).
Proof. vm_compute. repeat split; try reflexivity. discriminate. Qed.

(** C1 (amended): for every initial triple whose enable value lies in
    0..32767, after a run that returns normally (through the data-ready
    branch or the unexpected-event branch) the three registers hold
    exactly their initial values. *)
Theorem registers_restored np_array_f b s :
  result (Log.start_meas_sample np_array_f b s) = Ret tt ->
  0 <= opr_enab (bus s) <= 32767 ->
  registers (bus (final (Log.start_meas_sample np_array_f b s)))
  = registers (bus s).
Proof.
  intros Hret Henab.
  destruct (run_shape np_array_f b s) as (tail & post & _ & _ & [H|H]).
  - destruct H as (_ & _ & ->). rewrite restored_registers_eq.
    apply accepted_spec in Henab. by rewrite Henab.
  - destruct H as [[e He] _]. congruence.
Qed.

Lemma registers_restored_witness :
  registers (bus (final (Log.start_meas_sample Fixture.np_accept true
                           Fixture.scenario)))
  = (32, 0, 0).
Proof.
  apply (registers_restored Fixture.np_accept true Fixture.scenario).
  - vm_compute. reflexivity.
  - vm_compute. split; discriminate.
Defined.

(** ** C2: timeout of the wait *)

(** C2: when the wait for the service request times out, the call raises
    the timeout error; [log_data] is the empty mapping; the wait is the
    last thing the run does, so nothing is written back, and the three
    registers stay as they were armed, the enable register at 32. *)
Theorem timeout_propagates np_array_f b s :
  srq_raised (bus s) = false ->
  result (Log.start_meas_sample np_array_f b s) = Raise Py.VisaIOError_timeout
  /\ log_data (final (Log.start_meas_sample np_array_f b s)) = ∅
  /\ (exists pre, trace (Log.start_meas_sample np_array_f b s)
                  = pre ++ [WaitSRQ 10000])
  /\ registers (bus (final (Log.start_meas_sample np_array_f b s)))
     = armed_registers (opr_ptr (bus s)) (opr_ntr (bus s))
  /\ opr_enab (bus (final (Log.start_meas_sample np_array_f b s))) = 32.
Proof.
  intros Hsrq.
  destruct (run_timeout np_array_f b s Hsrq) as (Ht & Hr & Hl & Hg).
  repeat split; try done.
  - rewrite Ht. unfold head_events, arm_events.
    eexists. rewrite !List.app_comm_cons, !List.app_assoc. reflexivity.
  - unfold registers, armed_registers in Hg. by inversion Hg.
Qed.

Lemma timeout_propagates_witness :
  result (Log.start_meas_sample Fixture.np_accept true Fixture.scenario_timeout)
  = Raise Py.VisaIOError_timeout
  /\ opr_enab (bus (final (Log.start_meas_sample Fixture.np_accept true
                             Fixture.scenario_timeout))) = 32.
Proof.
  destruct (timeout_propagates Fixture.np_accept true Fixture.scenario_timeout)
    as (H1 & _ & _ & _ & H2); [vm_compute; reflexivity | ].
  split; [exact H1 | exact H2].
Defined.

(** ** C3: the seconds axis *)

(** The instance of the spec: 5 samples at 2 ms give the five instants
    0, 0.002, 0.004, 0.006, 0.008. *)
Example seconds_axis_5_samples :
  log_data (final (Log.start_meas_sample Fixture.np_accept true
                     Fixture.scenario)) !! "seconds"
  = Some (Np.float64 [0; 0.002; 0.004; 0.006; 0.008]%float).
Proof. vm_compute. reflexivity. Qed.

(** C3 (the code at the failing input): with 253 samples at 15.6
    microseconds the product [t * n] rounds up, the quotient
    [(t * n) / t] is just above 253, and the axis gets 254 elements, one
    more than the sample count. *)
Theorem seconds_axis_253_samples :
  exists secs,
    log_data (final (Log.start_meas_sample Fixture.np_accept true
                       Fixture.scenario_253)) !! "seconds"
    = Some (Np.float64 secs)
    /\ length secs = 254%nat
    /\ Np.ceil ((1.56e-05 * 253) / 1.56e-05)%float = Some 254.
Proof.
  eexists. split; [vm_compute; reflexivity|]. split; vm_compute; reflexivity.
Qed.

(** ** C4: the enable register during the run *)

(** C4: the trace of every run splits at its first write to the enable
    register, which writes 32, into what comes before, a window, and the
    restoration (nothing, when the run raises). No event of the window
    writes the enable register, and after the write and after each event
    of the window the enable register of the instrument holds 32. (The
    instrument follows the trace: at the end of the run it is in the state
    the whole trace leads to.) *)
Theorem enable_register_is_32_in_window np_array_f b s :
  exists win post,
    trace (Log.start_meas_sample np_array_f b s)
    = before_enable_write (trace (Log.start_meas_sample np_array_f b s))
      ++ BusWrite ":STAT:OPER:ENAB" (Some 32) :: win ++ post
    /\ bus (final (Log.start_meas_sample np_array_f b s))
       = replay (bus s) (trace (Log.start_meas_sample np_array_f b s))
    /\ Forall (fun e => writes_to ":STAT:OPER:ENAB" e = false) win
    /\ (forall k,
          opr_enab
            (replay (bus s)
               (before_enable_write
                  (trace (Log.start_meas_sample np_array_f b s))
                ++ BusWrite ":STAT:OPER:ENAB" (Some 32) :: take k win))
          = 32)
    /\ ((result (Log.start_meas_sample np_array_f b s) = Ret tt
         /\ post = restore_events (opr_ptr (bus s)) (opr_ntr (bus s))
                                  (opr_enab (bus s)))
        \/ ((exists e, result (Log.start_meas_sample np_array_f b s) = Raise e)
            /\ post = [])).
Proof.
  rewrite before_enable_write_run.
  destruct (run_shape np_array_f b s) as (tail & post & Ht & Htail & Hpost).
  assert (Forall (fun e => writes_to hdr_enab e = false) (arm_events b ++ tail))
    as Hwin by (apply Forall_app; auto using arm_events_no_enable_write).
  exists (arm_events b ++ tail), post. split; [|split; [|split; [|split]]].
  - rewrite Ht. unfold head_events.
    rewrite <- ?List.app_assoc. cbn [app]. by rewrite <- ?List.app_assoc.
  - apply tracks_start_meas_sample.
  - exact Hwin.
  - intros k. rewrite replay_app. cbn [replay fold_left].
    change (opr_enab (replay (dev_step (BusWrite hdr_enab (Some 32))
                                (replay (bus s)
                                   (snapshot_events
                                    ++ edge_events (opr_ptr (bus s))
                                                   (opr_ntr (bus s)))))
                        (take k (arm_events b ++ tail))) = 32).
    rewrite replay_enable_frame; [done|].
    apply Forall_take, Hwin.
  - destruct Hpost as [(Hr & Hp & _)|Hp]; [left|right]; done.
Qed.

(** ** C5: the edge filters *)

Lemma elem_of_accessor_events hdr v e :
  e ∈ accessor_events hdr v ->
  e = BusWrite hdr (Some v) \/ exists msg, e = Print msg.
Proof.
  unfold accessor_events.
  destruct (ValidateRegister.register_16 v); intros ->%list_elem_of_singleton;
    eauto.
Qed.

(** A register write among the events before the enable write is one of
    the two guarded writes of the edge filters. *)
Lemma write_before_enable h v ptr ntr :
  BusWrite h (Some v) ∈ snapshot_events ++ edge_events ptr ntr ->
  (Z.testbit ptr 5 = true /\ h = hdr_ptr /\ v = ptr - 32)
  \/ (Z.testbit ntr 5 = false /\ h = hdr_ntr /\ v = ntr + 32).
Proof.
  unfold snapshot_events, edge_events. rewrite !truthy_land_32, !elem_of_app.
  intros [H|[H|H]].
  - repeat (apply elem_of_cons in H as [H|H]; [discriminate|]).
    by apply elem_of_nil in H.
  - destruct (Z.testbit ptr 5); [|by apply elem_of_nil in H].
    apply elem_of_accessor_events in H as [H|[? H]]; [|discriminate].
    left. by inversion H.
  - destruct (Z.testbit ntr 5); cbn [negb] in H; [by apply elem_of_nil in H|].
    apply elem_of_accessor_events in H as [H|[? H]]; [|discriminate].
    right. by inversion H.
Qed.

(** C5: before the enable register is written, the positive-transition
    register is written only when bit 5 (value 32) is set in the saved
    value, and then with the saved value minus 32, which is the saved
    value with that bit cleared; the negative-transition register is
    written only when the bit is clear in the saved value, and then with
    the saved value plus 32, which is the saved value with the bit set.
    When the condition holds and the new value is one the accessor
    accepts, the write is there. *)
Theorem edge_filters_written_when_needed np_array_f b s :
  (forall v,
     BusWrite ":STAT:OPER:PTR" (Some v)
       ∈ before_enable_write (trace (Log.start_meas_sample np_array_f b s)) ->
     Z.land (opr_ptr (bus s)) 32 <> 0
     /\ v = opr_ptr (bus s) - 32 /\ v = Z.clearbit (opr_ptr (bus s)) 5)
  /\ (forall v,
        BusWrite ":STAT:OPER:NTR" (Some v)
          ∈ before_enable_write (trace (Log.start_meas_sample np_array_f b s)) ->
        Z.land (opr_ntr (bus s)) 32 = 0
        /\ v = opr_ntr (bus s) + 32 /\ v = Z.setbit (opr_ntr (bus s)) 5)
  /\ (Z.land (opr_ptr (bus s)) 32 <> 0 ->
      0 <= opr_ptr (bus s) - 32 <= 32767 ->
      BusWrite ":STAT:OPER:PTR" (Some (opr_ptr (bus s) - 32))
        ∈ before_enable_write (trace (Log.start_meas_sample np_array_f b s)))
  /\ (Z.land (opr_ntr (bus s)) 32 = 0 ->
      0 <= opr_ntr (bus s) + 32 <= 32767 ->
      BusWrite ":STAT:OPER:NTR" (Some (opr_ntr (bus s) + 32))
        ∈ before_enable_write (trace (Log.start_meas_sample np_array_f b s))).
Proof.
  rewrite before_enable_write_run.
  set (ptr := opr_ptr (bus s)). set (ntr := opr_ntr (bus s)).
  assert (forall x, Z.land x 32 <> 0 <-> Z.testbit x 5 = true) as Hnz.
  { intros x. rewrite land_32. destruct (Z.testbit x 5); split; done. }
  assert (forall x, Z.land x 32 = 0 <-> Z.testbit x 5 = false) as Hz.
  { intros x. rewrite land_32. destruct (Z.testbit x 5); split; done. }
  split; [|split; [|split]].
  - intros v [(Hb & _ & ->)|(_ & H & _)]%write_before_enable; [|discriminate].
    split; [by apply Hnz | split; [done | by apply sub_32_clearbit]].
  - intros v [(_ & H & _)|(Hb & _ & ->)]%write_before_enable; [discriminate|].
    split; [by apply Hz | split; [done | by apply add_32_setbit]].
  - intros Hb%Hnz Hv. unfold edge_events.
    rewrite truthy_land_32, Hb, (accessor_events_accepted hdr_ptr (ptr - 32))
      by done.
    rewrite !elem_of_app. right. left. apply list_elem_of_singleton.
    reflexivity.
  - intros Hb%Hz Hv. unfold edge_events.
    rewrite (truthy_land_32 ntr), Hb,
      (accessor_events_accepted hdr_ntr (ntr + 32)) by done.
    rewrite !elem_of_app. right. right. apply list_elem_of_singleton.
    reflexivity.
Qed.

Lemma edge_filters_written_when_needed_witness :
  BusWrite ":STAT:OPER:PTR" (Some 0)
    ∈ before_enable_write
        (trace (Log.start_meas_sample Fixture.np_accept true Fixture.scenario))
  /\ BusWrite ":STAT:OPER:NTR" (Some 32)
       ∈ before_enable_write
           (trace (Log.start_meas_sample Fixture.np_accept true
                     Fixture.scenario)).
Proof.
  destruct (edge_filters_written_when_needed Fixture.np_accept true
              Fixture.scenario) as (_ & _ & Hp & Hn).
  split.
  - apply Hp; vm_compute; [discriminate | split; discriminate].
  - apply Hn; vm_compute; [reflexivity | split; discriminate].
Defined.

(** ** C6: the end-to-end scenario *)

(** C6: with sense CURR (the instrument reports it with its quotes) and
    a trigger that fired, the run issues the current fetch query, returns
    normally, and [log_data] has exactly the keys "current" and
    "seconds"; there is no "voltage" key. *)
Theorem curr_sense_gives_current_and_seconds np_array_f b s arr secs :
  trig_sense s = "CURR" \/ trig_sense s = Py.quoted "CURR" ->
  srq_raised (bus s) = true ->
  Z.land (event_after_wait (bus s)) 32 <> 0 ->
  np_array_f (Py.split_comma (fetch_reply (bus s) "FETC:ARR:CURR?"))
  = Some arr ->
  Np.arange 0 (integration_time s * sample_points s) (integration_time s)
  = Some secs ->
  result (Log.start_meas_sample np_array_f b s) = Ret tt
  /\ BusQuery "FETC:ARR:CURR?" ∈ trace (Log.start_meas_sample np_array_f b s)
  /\ dom (log_data (final (Log.start_meas_sample np_array_f b s)))
     = ({["current"; "seconds"]} : gset string)
  /\ log_data (final (Log.start_meas_sample np_array_f b s)) !! "voltage"
     = None.
Proof.
  intros Hsense%fetch_choice_curr Hsrq Hev%trigger_fired_iff Harr Hsecs.
  destruct (run_data_ready np_array_f b s arr secs Hsrq Hev)
    as (Ht & Hr & Hl & _); [by rewrite Hsense | done |].
  rewrite Hsense in Ht, Hl. cbn [fst snd] in Ht, Hl.
  split; [done|]. split; [|split].
  - rewrite Ht, !elem_of_app. right. right. left. by apply list_elem_of_singleton.
  - rewrite Hl, !dom_insert_L, dom_empty_L. set_solver.
  - rewrite Hl. by rewrite !lookup_insert_ne.
Qed.

Lemma curr_sense_gives_current_and_seconds_witness :
  dom (log_data (final (Log.start_meas_sample Fixture.np_accept false
                          Fixture.scenario)))
  = ({["current"; "seconds"]} : gset string).
Proof.
  eapply (curr_sense_gives_current_and_seconds Fixture.np_accept false
            Fixture.scenario).
  - right. reflexivity.
  - reflexivity.
  - vm_compute. discriminate.
  - reflexivity.
  - vm_compute. reflexivity.
Defined.

(** ** C7: the unexpected-event branch *)

(** C7, as stated, fails: in a run through the unexpected-event branch the
    message that reports the condition is event 13 of the trace and the
    three writes of the restoration are events 14, 15 and 16: the report
    comes first. *)
Lemma report_precedes_restoration_counterexample :
  let tr := trace (Log.start_meas_sample Fixture.np_accept false
                     Fixture.scenario_unexpected) in
  tr !! 13%nat = Some (Print "Unknown error: event reg 0")
  /\ tr !! 14%nat = Some (BusWrite ":STAT:OPER:PTR" (Some 32))
  /\ tr !! 15%nat = Some (BusWrite ":STAT:OPER:NTR" (Some 0))
  /\ tr !! 16%nat = Some (BusWrite ":STAT:OPER:ENAB" (Some 0))
  /\ length tr = 17%nat
  /\ ~ (forall i j e,
          tr !! i = Some (Print "Unknown error: event reg 0") ->
          tr !! j = Some e ->
          e ∈ restore_events 32 0 0 ->
          (j < i)%nat).
Proof.
  cbv zeta. repeat split; try (vm_compute; reflexivity).
  intros H.
  specialize (H 13%nat 14%nat (BusWrite ":STAT:OPER:PTR" (Some 32))).
  assert (14 < 13)%nat; [|lia].
  apply H; [vm_compute; reflexivity | vm_compute; reflexivity |].
  vm_compute. left.
Qed.

(** C7 (amended): on the unexpected-event branch the call prints the
    message with the event-register value and then performs the
    restoration, the three accessor calls with the saved values, which is
    the last thing it does before it returns normally; the positive and
    negative transition registers then hold their saved values, and so
    does the enable register when its saved value lies in 0..32767. *)
Theorem report_then_restoration np_array_f b s :
  srq_raised (bus s) = true ->
  Z.land (event_after_wait (bus s)) 32 = 0 ->
  (exists pre,
     trace (Log.start_meas_sample np_array_f b s)
     = pre
       ++ Print ("Unknown error: event reg "
                 +:+ Py.str (event_after_wait (bus s)))
       :: restore_events (opr_ptr (bus s)) (opr_ntr (bus s))
                         (opr_enab (bus s)))
  /\ result (Log.start_meas_sample np_array_f b s) = Ret tt
  /\ opr_ptr (bus (final (Log.start_meas_sample np_array_f b s)))
     = opr_ptr (bus s)
  /\ opr_ntr (bus (final (Log.start_meas_sample np_array_f b s)))
     = opr_ntr (bus s)
  /\ (0 <= opr_enab (bus s) <= 32767 ->
      opr_enab (bus (final (Log.start_meas_sample np_array_f b s)))
      = opr_enab (bus s)).
Proof.
  intros Hsrq Hev%trigger_not_fired_iff.
  destruct (run_unexpected np_array_f b s Hsrq Hev) as (Ht & Hr & _ & Hg).
  rewrite restored_registers_eq in Hg. unfold registers in Hg.
  injection Hg as Hp Hn He.
  split; [|repeat split; try done].
  - exists (head_events (bus s) b ++ wake_events).
    rewrite Ht, <- List.app_assoc. reflexivity.
  - intros Ha%accepted_spec. by rewrite He, Ha.
Qed.

Lemma report_then_restoration_witness :
  result (Log.start_meas_sample Fixture.np_accept false
            Fixture.scenario_unexpected) = Ret tt
  /\ opr_enab (bus (final (Log.start_meas_sample Fixture.np_accept false
                             Fixture.scenario_unexpected))) = 0.
Proof.
  destruct (report_then_restoration Fixture.np_accept false
              Fixture.scenario_unexpected) as (_ & Hr & _ & _ & He);
    [reflexivity | reflexivity |].
  split; [exact Hr | apply He; vm_compute; split; discriminate].
Defined.

(** ** C8: values the register accessors accept *)

(** C8, as stated, fails: 40000 is a 16-bit unsigned value, and the enable
    accessor called with it issues no SCPI write; it prints the warning
    and leaves the register as it was. *)
Lemma register_16_refuses_40000 :
  let r := Status.opr_enable_reg (Some 40000) Fixture.scenario in
  Forall (fun e => writes_to hdr_enab e = false) (trace r)
  /\ trace r = [Print (Validate.error_text "WARNING"
                  (Py.ValueError_obj
                     ("ValueError!" +:+ Py.nl
                      +:+ "Not in range:(int) (0, 32767)")))]
  /\ opr_enab (bus (final r)) = opr_enab (bus Fixture.scenario)
  /\ ~ (trace r = [BusWrite hdr_enab (Some 40000)]).
Proof.
  vm_compute. split; [repeat constructor|].
  split; [reflexivity|]. split; [reflexivity|]. discriminate.
Qed.

(** C8 (amended): every integer from 0 through 32767 is an accepted write
    value of the three accessors: each issues exactly the SCPI write of
    its register with that value, and the register then holds it. Every
    value from 32768 through 65535 is refused by each of them: a warning
    is printed, nothing is written and the register keeps its value. *)
Theorem register_accessors_accept_15_bits v s :
  (0 <= v <= 32767 ->
   (trace (Status.opr_ptr_reg (Some v) s) = [BusWrite ":STAT:OPER:PTR" (Some v)]
    /\ opr_ptr (bus (final (Status.opr_ptr_reg (Some v) s))) = v)
   /\ (trace (Status.opr_ntr_reg (Some v) s)
       = [BusWrite ":STAT:OPER:NTR" (Some v)]
       /\ opr_ntr (bus (final (Status.opr_ntr_reg (Some v) s))) = v)
   /\ (trace (Status.opr_enable_reg (Some v) s)
       = [BusWrite ":STAT:OPER:ENAB" (Some v)]
       /\ opr_enab (bus (final (Status.opr_enable_reg (Some v) s))) = v))
  /\ (32768 <= v <= 65535 ->
      (exists msg, trace (Status.opr_ptr_reg (Some v) s) = [Print msg])
      /\ (exists msg, trace (Status.opr_ntr_reg (Some v) s) = [Print msg])
      /\ (exists msg, trace (Status.opr_enable_reg (Some v) s) = [Print msg])
      /\ registers (bus (final (Status.opr_ptr_reg (Some v) s)))
         = registers (bus s)
      /\ registers (bus (final (Status.opr_ntr_reg (Some v) s)))
         = registers (bus s)
      /\ registers (bus (final (Status.opr_enable_reg (Some v) s)))
         = registers (bus s)).
Proof.
  split.
  - intros Hv. pose proof Hv as Ha%accepted_spec.
    repeat split.
    + apply (wp_opr_ptr_reg_set v s (fun r => trace r = _)).
      cbn [trace]. by apply accessor_events_accepted.
    + apply (wp_opr_ptr_reg_set v s (fun r => opr_ptr (bus (final r)) = _)).
      cbn. by rewrite Ha.
    + apply (wp_opr_ntr_reg_set v s (fun r => trace r = _)).
      cbn [trace]. by apply accessor_events_accepted.
    + apply (wp_opr_ntr_reg_set v s (fun r => opr_ntr (bus (final r)) = _)).
      cbn. by rewrite Ha.
    + apply (wp_opr_enable_reg_set v s (fun r => trace r = _)).
      cbn [trace]. by apply accessor_events_accepted.
    + apply (wp_opr_enable_reg_set v s (fun r => opr_enab (bus (final r)) = _)).
      cbn. by rewrite Ha.
  - intros Hv. assert (accepted v = false) as Ha by (apply accepted_false; lia).
    repeat split.
    + apply (wp_opr_ptr_reg_set v s (fun r => exists msg, trace r = [Print msg])).
      cbn [trace]. apply accessor_events_refused. lia.
    + apply (wp_opr_ntr_reg_set v s (fun r => exists msg, trace r = [Print msg])).
      cbn [trace]. apply accessor_events_refused. lia.
    + apply (wp_opr_enable_reg_set v s
               (fun r => exists msg, trace r = [Print msg])).
      cbn [trace]. apply accessor_events_refused. lia.
    + apply (wp_opr_ptr_reg_set v s
               (fun r => registers (bus (final r)) = registers (bus s))).
      cbn. by rewrite Ha.
    + apply (wp_opr_ntr_reg_set v s
               (fun r => registers (bus (final r)) = registers (bus s))).
      cbn. by rewrite Ha.
    + apply (wp_opr_enable_reg_set v s
               (fun r => registers (bus (final r)) = registers (bus s))).
      cbn. by rewrite Ha.
Qed.

Lemma register_accessors_accept_15_bits_witness :
  trace (Status.opr_enable_reg (Some 32767) Fixture.scenario)
  = [BusWrite ":STAT:OPER:ENAB" (Some 32767)]
  /\ exists msg,
       trace (Status.opr_enable_reg (Some 32768) Fixture.scenario)
       = [Print msg].
Proof.
  split.
  - apply (register_accessors_accept_15_bits 32767 Fixture.scenario). lia.
  - apply (register_accessors_accept_15_bits 32768 Fixture.scenario). lia.
Defined.

(** ** C9: the output of a call *)

(** C9: when the service request arrives, the call returns normally either
    way and hands its result over in [log_data], whatever [log_data] held
    before: with a trigger that fired (and a reply that parses) it is the
    mapping with the fetched samples under "current" or "voltage" and the
    time axis under "seconds"; on the unexpected-event branch it is the
    empty mapping. *)
Theorem result_mapping np_array_f b s :
  srq_raised (bus s) = true ->
  (Z.land (event_after_wait (bus s)) 32 <> 0 ->
   forall arr secs,
     np_array_f (Py.split_comma
                   (fetch_reply (bus s) (fetch_choice (trig_sense s)).1))
     = Some arr ->
     Np.arange 0 (integration_time s * sample_points s) (integration_time s)
     = Some secs ->
     result (Log.start_meas_sample np_array_f b s) = Ret tt
     /\ ((fetch_choice (trig_sense s)).2 = "current"
         \/ (fetch_choice (trig_sense s)).2 = "voltage")
     /\ log_data (final (Log.start_meas_sample np_array_f b s))
        = <["seconds" := Np.float64 secs]>
            ({[(fetch_choice (trig_sense s)).2 := arr]}))
  /\ (Z.land (event_after_wait (bus s)) 32 = 0 ->
      result (Log.start_meas_sample np_array_f b s) = Ret tt
      /\ log_data (final (Log.start_meas_sample np_array_f b s)) = ∅).
Proof.
  intros Hsrq. split.
  - intros Hev%trigger_fired_iff arr secs Harr Hsecs.
    destruct (run_data_ready np_array_f b s arr secs Hsrq Hev Harr Hsecs)
      as (_ & Hr & Hl & _).
    split; [done|]. split; [|by rewrite Hl, insert_empty].
    unfold fetch_choice.
    destruct (Py.str_in _ _); [by left|]. destruct (Py.str_in _ _); by right.
  - intros Hev%trigger_not_fired_iff.
    by destruct (run_unexpected np_array_f b s Hsrq Hev) as (_ & Hr & Hl & _).
Qed.

Lemma result_mapping_witness :
  log_data (final (Log.start_meas_sample Fixture.np_accept false
                     Fixture.scenario_unexpected)) = ∅
  /\ result (Log.start_meas_sample Fixture.np_accept false Fixture.scenario)
     = Ret tt.
Proof.
  pose proof (result_mapping Fixture.np_accept false
                Fixture.scenario_unexpected eq_refl) as [_ Hu].
  pose proof (result_mapping Fixture.np_accept false
                Fixture.scenario eq_refl) as [Hd _].
  split.
  - apply Hu. reflexivity.
  - eapply Hd; [vm_compute; discriminate | reflexivity
               | vm_compute; reflexivity].
Defined.

(** ** C10: selection of the fetch *)

(** C10: the fetch is chosen by two substring tests on the sense value:
    a sense that occurs in the literal with the quoted CURR (the empty
    string does) gives the current fetch and the key "current"; failing
    that, a sense that occurs in the literal with the quoted VOLT gives the
    voltage fetch and the key "voltage"; every other sense gives the DVM
    fetch, and its data goes under "voltage" too. *)
Theorem fetch_branch_selection np_array_f b s secs :
  srq_raised (bus s) = true ->
  Z.land (event_after_wait (bus s)) 32 <> 0 ->
  (forall q, is_Some (np_array_f (Py.split_comma (fetch_reply (bus s) q)))) ->
  Np.arange 0 (integration_time s * sample_points s) (integration_time s)
  = Some secs ->
  (Py.str_in (trig_sense s) (Py.quoted "CURR") = true ->
   BusQuery "FETC:ARR:CURR?" ∈ trace (Log.start_meas_sample np_array_f b s)
   /\ log_data (final (Log.start_meas_sample np_array_f b s)) !! "current"
      = np_array_f (Py.split_comma (fetch_reply (bus s) "FETC:ARR:CURR?"))
   /\ log_data (final (Log.start_meas_sample np_array_f b s)) !! "voltage"
      = None)
  /\ (Py.str_in (trig_sense s) (Py.quoted "CURR") = false ->
      Py.str_in (trig_sense s) (Py.quoted "VOLT") = true ->
      BusQuery "FETC:ARR:VOLT?" ∈ trace (Log.start_meas_sample np_array_f b s)
      /\ log_data (final (Log.start_meas_sample np_array_f b s)) !! "voltage"
         = np_array_f (Py.split_comma (fetch_reply (bus s) "FETC:ARR:VOLT?"))
      /\ log_data (final (Log.start_meas_sample np_array_f b s)) !! "current"
         = None)
  /\ (Py.str_in (trig_sense s) (Py.quoted "CURR") = false ->
      Py.str_in (trig_sense s) (Py.quoted "VOLT") = false ->
      BusQuery "FETC:ARR:DVM?" ∈ trace (Log.start_meas_sample np_array_f b s)
      /\ log_data (final (Log.start_meas_sample np_array_f b s)) !! "voltage"
         = np_array_f (Py.split_comma (fetch_reply (bus s) "FETC:ARR:DVM?"))
      /\ log_data (final (Log.start_meas_sample np_array_f b s)) !! "current"
         = None)
  /\ Py.str_in EmptyString (Py.quoted "CURR") = true.
Proof.
  intros Hsrq Hev%trigger_fired_iff Hparse Hsecs.
  destruct (Hparse (fetch_choice (trig_sense s)).1) as [arr Harr].
  destruct (run_data_ready np_array_f b s arr secs Hsrq Hev Harr Hsecs)
    as (Ht & _ & Hl & _).
  rewrite Ht, Hl. clear Ht Hl. unfold fetch_choice in *.
  destruct (Py.str_in (trig_sense s) (Py.quoted "CURR"));
    [|destruct (Py.str_in (trig_sense s) (Py.quoted "VOLT"))];
    cbn [fst snd] in *;
    (split; [|split; [|split]]); try discriminate; try reflexivity;
    intros; try discriminate;
    (split; [rewrite !elem_of_app; right; right; left;
             by apply list_elem_of_singleton|]);
    split; rewrite ?lookup_insert_ne, ?lookup_insert_eq, ?lookup_empty by done;
    congruence.
Qed.

Lemma fetch_branch_selection_witness :
  BusQuery "FETC:ARR:DVM?"
    ∈ trace (Log.start_meas_sample Fixture.np_accept false
               (Fixture.log (Fixture.instrument 32 0 0 [0; 32] true)
                            (Py.quoted "DVM") 0.002 5)).
Proof.
  eapply (fetch_branch_selection Fixture.np_accept false
            (Fixture.log (Fixture.instrument 32 0 0 [0; 32] true)
                         (Py.quoted "DVM") 0.002 5)).
  - reflexivity.
  - vm_compute. discriminate.
  - intros q. eexists. reflexivity.
  - vm_compute. reflexivity.
  - reflexivity.
  - reflexivity.
Defined.

(** * Further properties *)

(** ** Text: case and substrings *)

Lemma append_cons x (a b : string) : String x a +:+ b = String x (a +:+ b).
Proof. reflexivity. Qed.

Lemma append_assoc (a b c : string) : (a +:+ b) +:+ c = a +:+ b +:+ c.
Proof. induction a as [|x a IH]; [done|]. by rewrite !append_cons, IH. Qed.

Lemma lower_app a b :
  PyText.lower (a +:+ b) = PyText.lower a +:+ PyText.lower b.
Proof.
  induction a as [|x a IH]; [done|].
  rewrite append_cons. cbn [PyText.lower]. by rewrite IH.
Qed.

Lemma upper_lower_char c :
  PyText.upper_char (PyText.lower_char c) = PyText.upper_char c.
Proof. destruct c as [[] [] [] [] [] [] [] []]; reflexivity. Qed.

Lemma upper_lower s : PyText.upper (PyText.lower s) = PyText.upper s.
Proof.
  induction s as [|c s IH]; [done|]. cbn. by rewrite IH, upper_lower_char.
Qed.

Lemma upper_idem_char c :
  PyText.upper_char (PyText.upper_char c) = PyText.upper_char c.
Proof. destruct c as [[] [] [] [] [] [] [] []]; reflexivity. Qed.

Lemma str_in_middle a p q : Py.str_in a (p +:+ a +:+ q) = true.
Proof. apply str_in_iff. eauto. Qed.

Lemma str_in_lower a b :
  Py.str_in a b = true -> Py.str_in (PyText.lower a) (PyText.lower b) = true.
Proof.
  intros (p & q & ->)%str_in_iff. rewrite !lower_app. apply str_in_middle.
Qed.

(** A member of a tuple occurs in the text the tuple prints as. *)
Lemma member_in_join m t :
  m ∈ t ->
  exists p q, PyText.join ", " (map PyText.repr_str t) = p +:+ m +:+ q.
Proof.
  induction t as [|a t IH]; [by intros ?%elem_of_nil|].
  intros [->|Hm]%elem_of_cons.
  - destruct t as [|b t].
    + exists "'", "'". reflexivity.
    + exists "'", ("'" +:+ ", " +:+ PyText.join ", " (map PyText.repr_str (b :: t))).
      cbn [map PyText.join]. unfold PyText.repr_str at 1.
      by rewrite !append_assoc.
  - destruct (IH Hm) as (p & q & Hpq).
    destruct t as [|b t]; [by apply elem_of_nil in Hm|].
    exists (PyText.repr_str a +:+ ", " +:+ p), q.
    change (PyText.join ", " (map PyText.repr_str (a :: b :: t)))
      with (PyText.repr_str a +:+ ", "
            +:+ PyText.join ", " (map PyText.repr_str (b :: t))).
    by rewrite Hpq, !append_assoc.
Qed.

Lemma member_in_repr m t :
  m ∈ t -> Py.str_in m (PyText.str_tuple_repr t) = true.
Proof.
  intros Hm. apply str_in_iff.
  destruct (member_in_join m t Hm) as (p & q & Hpq).
  destruct t as [|a [|b t]].
  - by apply elem_of_nil in Hm.
  - apply list_elem_of_singleton in Hm as ->.
    exists "('", "',)". unfold PyText.str_tuple_repr, PyText.repr_str.
    by rewrite !append_assoc.
  - exists ("(" +:+ p), (q +:+ ")").
    unfold PyText.str_tuple_repr. by rewrite Hpq, !append_assoc.
Qed.

(** The text of a tuple of two or more elements has a comma and a space
    between the first two. *)
Lemma separator_in_repr a b t :
  Py.str_in ", " (PyText.str_tuple_repr (a :: b :: t)) = true.
Proof.
  apply str_in_iff.
  exists ("(" +:+ PyText.repr_str a),
    (PyText.join ", " (map PyText.repr_str (b :: t)) +:+ ")").
  unfold PyText.str_tuple_repr.
  change (PyText.join ", " (map PyText.repr_str (a :: b :: t)))
    with (PyText.repr_str a +:+ ", "
          +:+ PyText.join ", " (map PyText.repr_str (b :: t))).
  by rewrite !append_assoc.
Qed.

Lemma str_in_empty b : Py.str_in EmptyString b = true.
Proof. apply str_in_iff. by exists EmptyString, b. Qed.

(** ** The validators on [str] *)

(** A member in any letter case passes the substring test. *)
Lemma str_tuple_member validation_set m v :
  m ∈ validation_set ->
  PyText.lower v = PyText.lower m ->
  ValidateText.str_tuple validation_set (PyText.Str v)
  = inl (PyText.upper v).
Proof.
  intros Hm Hv. unfold ValidateText.str_tuple, ValidateText.find_element.
  rewrite Hv, str_in_lower by (by apply member_in_repr).
  by rewrite <- Hv, upper_lower.
Qed.

(** X1: [str_tuple] accepts every member of its validation set written in
    any letter case, and returns it in upper case. The set is one of
    plain texts and the value is ASCII, where [str_tuple_repr] and [lower]
    are Python's. *)
Theorem str_tuple_accepts_members validation_set m v :
  Forall (fun x => PyText.plain x = true) validation_set ->
  PyText.is_ascii v = true ->
  m ∈ validation_set ->
  PyText.lower v = PyText.lower m ->
  ValidateText.str_tuple validation_set (PyText.Str v)
  = inl (PyText.upper v).
Proof.
  intros _ _ Hm Hv. by apply str_tuple_member with m.
Qed.

Lemma str_tuple_accepts_members_witness :
  ValidateText.source (PyText.Str "Bus") = inl "BUS".
Proof.
  apply (str_tuple_accepts_members ["int"; "ext"; "bus"] "bus" "Bus").
  - repeat constructor.
  - reflexivity.
  - set_solver.
  - reflexivity.
Defined.

(** X2: the test of [str_tuple] is a substring test on the printed tuple,
    so values that are no member pass as well: the empty text always,
    and, for a set of two or more, the separator [", "]. A value passes
    exactly when its lower case occurs in the lower case of the print. *)
Theorem str_tuple_accepts_fragments validation_set :
  Forall (fun x => PyText.plain x = true) validation_set ->
  ValidateText.str_tuple validation_set (PyText.Str EmptyString)
  = inl EmptyString
  /\ ((2 <= length validation_set)%nat ->
      ValidateText.str_tuple validation_set (PyText.Str ", ") = inl ", ")
  /\ (forall v,
        PyText.is_ascii v = true ->
        (exists txt, ValidateText.str_tuple validation_set (PyText.Str v)
                     = inl txt)
        <-> exists p q,
              PyText.lower (PyText.str_tuple_repr validation_set)
              = p +:+ PyText.lower v +:+ q).
Proof.
  intros _. unfold ValidateText.str_tuple, ValidateText.find_element.
  split; [|split].
  - cbn [PyText.lower]. by rewrite str_in_empty.
  - destruct validation_set as [|a [|b t]]; cbn [length]; [lia|lia|].
    intros _.
    by rewrite (str_in_lower ", " _ (separator_in_repr a b t)).
  - intros v _. rewrite <- str_in_iff.
    destruct (Py.str_in _ _); split; eauto; try done.
    intros [txt Ht]. discriminate.
Qed.

Lemma str_tuple_accepts_fragments_witness :
  ValidateText.slope (PyText.Str ", ") = inl ", "
  /\ exists txt, ValidateText.source (PyText.Str "T', 'E") = inl txt.
Proof.
  destruct (str_tuple_accepts_fragments ["pos"; "neg"; "eith"])
    as (_ & H & _); [repeat constructor|].
  destruct (str_tuple_accepts_fragments ["int"; "ext"; "bus"])
    as (_ & _ & H'); [repeat constructor|].
  split; [apply H; cbn; lia|].
  apply H'; [reflexivity|]. by exists "('in", "xt', 'bus')".
Defined.

(** ** Accessors with a settings dictionary *)

(** X3: [Trigger.source] called with one of int, ext, bus in any letter
    case sends the text as the caller wrote it (the upper-case text the
    validator returns is not used), then queries the source and stores
    the reply under ['source'] in the settings; it returns [None] and
    changes no register of the instrument. *)
Theorem trigger_source_set _trig v m s :
  PyText.is_ascii v = true ->
  m ∈ ["int"; "ext"; "bus"] ->
  PyText.lower v = m ->
  trace (Accessors.Trigger_source _trig (PyText.Str v) s)
  = [BusWrite ("TRIG:ACQ:SOUR " +:+ v) None; BusQuery "TRIG:ACQ:SOUR?"]
  /\ result (Accessors.Trigger_source _trig (PyText.Str v) s)
     = Ret (None,
            Some (<["source" := dev_reply "TRIG:ACQ:SOUR?" (bus s)]> _trig))
  /\ bus (final (Accessors.Trigger_source _trig (PyText.Str v) s)) = bus s.
Proof.
  intros _ Hm Hv.
  assert (PyText.lower v = PyText.lower m) as Hl.
  { rewrite <- Hv.
    clear. induction v as [|c v IH]; [done|]. cbn [PyText.lower].
    rewrite <- IH. f_equal.
    destruct c as [[] [] [] [] [] [] [] []]; reflexivity. }
  unfold Accessors.Trigger_source, CommandDict.read_write, ValidateText.source.
  rewrite (str_tuple_member _ m v Hm Hl). by destruct s as [[]].
Qed.

Lemma trigger_source_set_witness :
  trace (Accessors.Trigger_source ∅ (PyText.Str "Ext") Fixture.scenario)
  = [BusWrite "TRIG:ACQ:SOUR Ext" None; BusQuery "TRIG:ACQ:SOUR?"].
Proof.
  apply (trigger_source_set ∅ "Ext" "ext" Fixture.scenario).
  - reflexivity.
  - set_solver.
  - reflexivity.
Defined.

Lemma int_range_spec z lo hi :
  Validate.int_range z (lo, hi) = true <-> lo <= z <= hi.
Proof.
  unfold Validate.int_range. cbn [fst snd].
  rewrite andb_true_iff, Z.leb_le, Z.ltb_lt. lia.
Qed.

(** X4: [Log.sample_points] as a setter takes the integers 1..4096: it
    writes the count, queries it back and stores the reply under
    ['sample_points']. Any other integer only prints a warning: nothing
    goes to the bus and the settings stay as they are. As a getter it
    queries and returns the reply, and does not refresh the settings. *)
Theorem log_sample_points_bounds _log n s :
  (1 <= n <= 4096 ->
   trace (Accessors.Log_sample_points _log (PyText.Int n) s)
   = [BusWrite "SENS:SWE:POIN" (Some n); BusQuery "SENS:SWE:POIN?"]
   /\ result (Accessors.Log_sample_points _log (PyText.Int n) s)
      = Ret (None,
             Some (<["sample_points" := dev_reply "SENS:SWE:POIN?" (bus s)]>
                     _log)))
  /\ (n < 1 \/ 4096 < n ->
      (exists msg,
         trace (Accessors.Log_sample_points _log (PyText.Int n) s)
         = [Print msg])
      /\ result (Accessors.Log_sample_points _log (PyText.Int n) s)
         = Ret (None, Some _log)
      /\ final (Accessors.Log_sample_points _log (PyText.Int n) s) = s)
  /\ (trace (Accessors.Log_sample_points _log PyText.NoneV s)
      = [BusQuery "SENS:SWE:POIN?"]
      /\ result (Accessors.Log_sample_points _log PyText.NoneV s)
         = Ret (Some (dev_reply "SENS:SWE:POIN?" (bus s)), Some _log)).
Proof.
  unfold Accessors.Log_sample_points, CommandDict.read_write,
    ValidateText.sample_points, ValidateText.int_rng_and_str_tuples.
  cbn [fst snd]. split; [|split].
  - intros Hn%int_range_spec. rewrite Hn. by destruct s as [[]].
  - intros Hn. destruct (Validate.int_range n (1, 4096)) eqn:E.
    + apply int_range_spec in E. lia.
    + split; [eauto|]. done.
  - done.
Qed.

Lemma log_sample_points_bounds_witness :
  trace (Accessors.Log_sample_points ∅ (PyText.Int 4096) Fixture.scenario)
  = [BusWrite "SENS:SWE:POIN" (Some 4096); BusQuery "SENS:SWE:POIN?"]
  /\ final (Accessors.Log_sample_points ∅ (PyText.Int 4097) Fixture.scenario)
     = Fixture.scenario.
Proof.
  destruct (log_sample_points_bounds ∅ 4096 Fixture.scenario) as (H & _ & _).
  destruct (log_sample_points_bounds ∅ 4097 Fixture.scenario) as (_ & H' & _).
  split; [apply H; lia | apply H'; lia].
Defined.

(** X5: [Common.ese] accepts the integers 0..128 only: for these it
    writes the register; for every other integer, among them the 8-bit
    values 129..255, it prints a warning and writes nothing. *)
Theorem common_ese_bounds v s :
  (0 <= v <= 128 ->
   trace (Accessors.Common_ese (PyText.Int v) s) = [BusWrite "*ESE" (Some v)])
  /\ (v < 0 \/ 128 < v ->
      (exists msg,
         trace (Accessors.Common_ese (PyText.Int v) s) = [Print msg])
      /\ final (Accessors.Common_ese (PyText.Int v) s) = s).
Proof.
  unfold Accessors.Common_ese, CommandDict.read_write,
    ValidateText.register_8, ValidateText.int_rng_tuple,
    Validate.int_rng_tuple.
  split.
  - intros Hn%int_range_spec. by rewrite Hn.
  - intros Hn. destruct (Validate.int_range v (0, 128)) eqn:E.
    + apply int_range_spec in E. lia.
    + split; [eauto | done].
Qed.

Lemma common_ese_bounds_witness :
  trace (Accessors.Common_ese (PyText.Int 128) Fixture.scenario)
  = [BusWrite "*ESE" (Some 128)]
  /\ final (Accessors.Common_ese (PyText.Int 255) Fixture.scenario)
     = Fixture.scenario.
Proof.
  destruct (common_ese_bounds 128 Fixture.scenario) as (H & _).
  destruct (common_ese_bounds 255 Fixture.scenario) as (_ & H').
  split; [apply H; lia | apply H'; lia].
Defined.

(** X6: [Trigger.sense] as a setter never refuses: whatever the validator
    returns, text or error object, goes into the quoted argument of the
    one message it writes; it then queries the function and stores the
    reply under ['settings'], so the entry ['sense'] that
    [start_meas_sample] reads keeps its old value. *)
Theorem trigger_sense_set dvm _trig v s :
  v <> PyText.NoneV ->
  trace (Accessors.Trigger_sense dvm _trig v s)
  = [BusWrite ("SENS:FUNC "
               +:+ Py.quoted (PyText.str_validated
                                (ValidateText.sense dvm v))) None;
     BusQuery "SENS:FUNC?"]
  /\ result (Accessors.Trigger_sense dvm _trig v s)
     = Ret (None, <["settings" := dev_reply "SENS:FUNC?" (bus s)]> _trig)
  /\ (<["settings" := dev_reply "SENS:FUNC?" (bus s)]> _trig) !! "sense"
     = _trig !! "sense".
Proof.
  intros Hv. unfold Accessors.Trigger_sense.
  destruct v as [z|x|]; [| |done].
  - split; [|split]; [reflexivity | by destruct s as [[]] |].
    by rewrite lookup_insert_ne.
  - split; [|split]; [reflexivity | by destruct s as [[]] |].
    by rewrite lookup_insert_ne.
Qed.

Lemma trigger_sense_set_witness :
  exists msg,
    trace (Accessors.Trigger_sense false ∅ (PyText.Str "dvm") Fixture.scenario)
    = [BusWrite ("SENS:FUNC " +:+ Py.quoted ("ValueError!" +:+ msg)) None;
       BusQuery "SENS:FUNC?"].
Proof.
  eexists.
  apply (trigger_sense_set false ∅ (PyText.Str "dvm") Fixture.scenario).
  discriminate.
Defined.

(** ** More on the acquisition sequence *)

Section MoreRuns.
Variable np_array_f : list string -> option Np.ndarray.

(** The service-request enable register along the five ways. *)
Lemma run_timeout_sre b s :
  srq_raised (bus s) = false ->
  sre (bus (final (Log.start_meas_sample np_array_f b s))) = 128.
Proof.
  destruct s as [[ptr ntr enab sre0 evs srq fr] ld sense t n].
  cbn [bus srq_raised]. intros ->.
  wp_start. wp_run; wp_done.
Qed.

Lemma run_unexpected_sre b s :
  srq_raised (bus s) = true ->
  trigger_fired (bus s) = false ->
  sre (bus (final (Log.start_meas_sample np_array_f b s))) = 0.
Proof.
  destruct s as [[ptr ntr enab sre0 evs srq fr] ld sense t n].
  cbn [bus srq_raised opr_events]. intros -> Hev.
  wp_start. wp_run; wp_done.
Qed.

Lemma run_fired_state b s :
  srq_raised (bus s) = true ->
  trigger_fired (bus s) = true ->
  sre (bus (final (Log.start_meas_sample np_array_f b s))) = 0
  /\ (result (Log.start_meas_sample np_array_f b s) <> Ret tt ->
      registers (bus (final (Log.start_meas_sample np_array_f b s)))
      = armed_registers (opr_ptr (bus s)) (opr_ntr (bus s))).
Proof.
  destruct s as [[ptr ntr enab sre0 evs srq fr] ld sense t n].
  cbn [bus srq_raised opr_events fetch_reply trig_sense integration_time
       sample_points].
  intros -> Hev.
  wp_start. wp_run; wp_done.
Qed.

End MoreRuns.

(** Membership in a list given by its elements. *)
Ltac in_list :=
  solve [repeat first [apply list_elem_of_here | apply list_elem_of_further]].

Section MoreProperties.
Variable np_array_f : list string -> option Np.ndarray.

(** The five ways, told apart by what the instrument and numpy do. *)
Lemma run_cases b s :
  (srq_raised (bus s) = false
   /\ trace (Log.start_meas_sample np_array_f b s) = head_events (bus s) b)
  \/ (srq_raised (bus s) = true /\ trigger_fired (bus s) = false
      /\ trace (Log.start_meas_sample np_array_f b s)
         = head_events (bus s) b ++ wake_events
           ++ [Print ("Unknown error: event reg "
                      +:+ Py.str (event_after_wait (bus s)))]
           ++ restore_events (opr_ptr (bus s)) (opr_ntr (bus s))
                             (opr_enab (bus s)))
  \/ (srq_raised (bus s) = true /\ trigger_fired (bus s) = true
      /\ result (Log.start_meas_sample np_array_f b s) = Ret tt
      /\ trace (Log.start_meas_sample np_array_f b s)
         = head_events (bus s) b ++ wake_events
           ++ [BusQuery (fetch_choice (trig_sense s)).1]
           ++ restore_events (opr_ptr (bus s)) (opr_ntr (bus s))
                             (opr_enab (bus s)))
  \/ (srq_raised (bus s) = true /\ trigger_fired (bus s) = true
      /\ (exists e, result (Log.start_meas_sample np_array_f b s) = Raise e)
      /\ trace (Log.start_meas_sample np_array_f b s)
         = head_events (bus s) b ++ wake_events
           ++ [BusQuery (fetch_choice (trig_sense s)).1]).
Proof.
  destruct (srq_raised (bus s)) eqn:Hsrq.
  2:{ left. split; [done|]. apply run_timeout, Hsrq. }
  destruct (trigger_fired (bus s)) eqn:Hev.
  2:{ right. left. repeat split; try done. by apply run_unexpected. }
  right. right.
  destruct (np_array_f (Py.split_comma
              (fetch_reply (bus s) (fetch_choice (trig_sense s)).1)))
    as [arr|] eqn:Harr.
  2:{ right. destruct (run_fetch_error np_array_f b s Hsrq Hev Harr)
        as (Ht & Hr & _). repeat split; eauto. }
  destruct (Np.arange 0 (integration_time s * sample_points s)
              (integration_time s)) as [secs|] eqn:Hsecs.
  2:{ right. destruct (run_arange_error np_array_f b s arr Hsrq Hev Harr Hsecs)
        as (Ht & Hr & _). repeat split; eauto. }
  left. destruct (run_data_ready np_array_f b s arr secs Hsrq Hev Harr Hsecs)
    as (Ht & Hr & _). repeat split; done.
Qed.

Lemma Forall_accessor_events (P : event -> Prop) hdr v :
  P (BusWrite hdr (Some v)) -> (forall msg, P (Print msg)) ->
  Forall P (accessor_events hdr v).
Proof.
  intros Hw Hp. unfold accessor_events.
  destruct (ValidateRegister.register_16 v); repeat constructor; auto.
Qed.

(** Every event of a run is of one of these kinds. *)
Lemma run_trace_all (P : event -> Prop) b s :
  (forall q,
     q ∈ ["STAT:OPER?"; ":STAT:OPER:PTR?"; ":STAT:OPER:NTR?";
          ":STAT:OPER:ENAB?"; "FETC:ARR:CURR?"; "FETC:ARR:VOLT?";
          "FETC:ARR:DVM?"] -> P (BusQuery q)) ->
  (forall h v, h ∈ [hdr_ptr; hdr_ntr; hdr_enab] -> P (BusWrite h (Some v))) ->
  (forall msg, P (Print msg)) ->
  P (BusWrite "*SRE" (Some 128)) ->
  P (BusWrite "*SRE" (Some 0)) ->
  P (BusWrite "*WAI" None) ->
  P (BusWrite "INIT:NAME ACQ" None) ->
  (b = true -> P (BusWrite "TRIG:ACQ" None)) ->
  P (WaitSRQ 10000) ->
  Forall P (trace (Log.start_meas_sample np_array_f b s)).
Proof.
  intros Hq Hw Hp H128 H0 Hwai Hinit Htrig Hwait.
  assert (Forall P (head_events (bus s) b)) as Hhead.
  { unfold head_events, snapshot_events, edge_events, arm_events.
    repeat first [ apply Forall_app; split | apply Forall_cons; split
                 | apply Forall_nil ];
      try (apply Hq; in_list); try (apply Hw; in_list); try done.
    - destruct (Py.truthy _); [|constructor].
      apply Forall_accessor_events; [apply Hw; in_list | done].
    - destruct (negb _); [|constructor].
      apply Forall_accessor_events; [apply Hw; in_list | done].
    - destruct b; repeat constructor. by apply Htrig. }
  assert (Forall P wake_events) as Hwake.
  { repeat constructor; [done | apply Hq; in_list]. }
  assert (Forall P (restore_events (opr_ptr (bus s)) (opr_ntr (bus s))
                                   (opr_enab (bus s)))) as Hrest.
  { unfold restore_events.
    repeat (apply Forall_app; split);
      (apply Forall_accessor_events; [apply Hw; in_list | done]). }
  assert (P (BusQuery (fetch_choice (trig_sense s)).1)) as Hfetch.
  { apply Hq. unfold fetch_choice.
    destruct (Py.str_in _ _); [in_list|].
    destruct (Py.str_in _ _); in_list. }
  destruct (run_cases b s)
    as [(_ & ->)|[(_ & _ & ->)|[(_ & _ & _ & ->)|(_ & _ & _ & ->)]]];
    repeat first [ assumption | apply Forall_app; split
                 | apply List.Forall_cons; [done|] | apply List.Forall_nil ].
Qed.

(** X7: a run only ever writes the three operation-status registers and
    the service-request enable register, and sends the barrier, the
    arming and the software trigger; its queries are the event register,
    the three registers and one of the three array fetches. It sends
    nothing else: no reset, no clear, no write to another register. *)
Theorem run_bus_traffic b s :
  (forall h a,
     BusWrite h a ∈ trace (Log.start_meas_sample np_array_f b s) ->
     h ∈ [":STAT:OPER:PTR"; ":STAT:OPER:NTR"; ":STAT:OPER:ENAB"; "*SRE";
          "*WAI"; "INIT:NAME ACQ"; "TRIG:ACQ"])
  /\ (forall q,
        BusQuery q ∈ trace (Log.start_meas_sample np_array_f b s) ->
        q ∈ ["STAT:OPER?"; ":STAT:OPER:PTR?"; ":STAT:OPER:NTR?";
             ":STAT:OPER:ENAB?"; "FETC:ARR:CURR?"; "FETC:ARR:VOLT?";
             "FETC:ARR:DVM?"]).
Proof.
  assert (Forall
    (fun e => match e with
              | BusWrite h _ =>
                  h ∈ [":STAT:OPER:PTR"; ":STAT:OPER:NTR"; ":STAT:OPER:ENAB";
                       "*SRE"; "*WAI"; "INIT:NAME ACQ"; "TRIG:ACQ"]
              | BusQuery q =>
                  q ∈ ["STAT:OPER?"; ":STAT:OPER:PTR?"; ":STAT:OPER:NTR?";
                       ":STAT:OPER:ENAB?"; "FETC:ARR:CURR?"; "FETC:ARR:VOLT?";
                       "FETC:ARR:DVM?"]
              | _ => True
              end) (trace (Log.start_meas_sample np_array_f b s))) as H.
  { apply run_trace_all; try done; try in_list; try (intros _; in_list).
    intros h v
      [->|[->|[->|[]%elem_of_nil]%elem_of_cons]%elem_of_cons]%elem_of_cons;
      in_list. }
  rewrite Forall_forall in H.
  split; [intros h a Hin | intros q Hin]; apply (H _ Hin).
Qed.

(** X8: the software trigger is sent exactly when the caller asks for it,
    and the acquisition is armed in every run. *)
Theorem bus_trigger_iff_flag b s :
  (BusWrite "TRIG:ACQ" None ∈ trace (Log.start_meas_sample np_array_f b s)
   <-> b = true)
  /\ BusWrite "INIT:NAME ACQ" None
       ∈ trace (Log.start_meas_sample np_array_f b s).
Proof.
  destruct (run_shape np_array_f b s) as (tail & post & Ht & _).
  split; [split|].
  - intros Hin.
    assert (Forall (fun e => e = BusWrite "TRIG:ACQ" None -> b = true)
              (trace (Log.start_meas_sample np_array_f b s))) as H.
    { by apply run_trace_all. }
    rewrite Forall_forall in H. by apply (H _ Hin).
  - intros ->. rewrite Ht. unfold head_events, arm_events.
    rewrite !elem_of_app. left. right. right. apply elem_of_cons. right.
    rewrite !elem_of_app. right. left. in_list.
  - rewrite Ht. unfold head_events, arm_events.
    rewrite !elem_of_app. left. right. right. apply elem_of_cons. right.
    rewrite !elem_of_app. left. in_list.
Qed.

(** X9: the service-request enable register is not put back: whatever it
    held before the call, it is 0 after every run in which the request
    arrived, and it is left at 128 when the wait timed out. *)
Theorem service_request_enable_not_restored b s :
  (srq_raised (bus s) = true ->
   sre (bus (final (Log.start_meas_sample np_array_f b s))) = 0)
  /\ (srq_raised (bus s) = false ->
      sre (bus (final (Log.start_meas_sample np_array_f b s))) = 128).
Proof.
  split; intros Hsrq.
  - destruct (trigger_fired (bus s)) eqn:Hev.
    + by apply run_fired_state.
    + by apply run_unexpected_sre.
  - by apply run_timeout_sre.
Qed.

End MoreProperties.

Lemma service_request_enable_not_restored_witness :
  sre (bus (final (Log.start_meas_sample Fixture.np_accept false
                     Fixture.scenario))) = 0
  /\ sre (bus (final (Log.start_meas_sample Fixture.np_accept false
                        Fixture.scenario_timeout))) = 128.
Proof.
  destruct (service_request_enable_not_restored Fixture.np_accept false
              Fixture.scenario) as [H _].
  destruct (service_request_enable_not_restored Fixture.np_accept false
              Fixture.scenario_timeout) as [_ H'].
  split; [apply H | apply H']; reflexivity.
Defined.

Section Composition.
Variable np_array_f : list string -> option Np.ndarray.

(** X10: what [log_data] held before the call has no influence on the
    run: the events, the outcome and the final state, [log_data]
    included, are the same whatever it was. Data of an earlier
    acquisition never survives a call, also not one that fails. *)
Theorem old_log_data_discarded b s ld :
  Log.start_meas_sample np_array_f b (with_log_data ld s)
  = Log.start_meas_sample np_array_f b s.
Proof.
  unfold Log.start_meas_sample.
  change (set_log_data ∅;; ?k) with (set_log_data ∅ ≫= (fun _ => k)).
  unfold mbind at 1, M_bind at 1, bind at 1. reflexivity.
Qed.

(** X11: when the fetched reply is not an array of numbers, the error of
    [np.array] leaves the call right after the fetch query: [log_data] is
    empty, nothing is written back, and the instrument keeps the armed
    registers, the enable register at 32. *)
Theorem fetch_error_skips_restoration b s :
  srq_raised (bus s) = true ->
  Z.land (event_after_wait (bus s)) 32 <> 0 ->
  np_array_f (Py.split_comma
                (fetch_reply (bus s) (fetch_choice (trig_sense s)).1))
  = None ->
  (exists e, result (Log.start_meas_sample np_array_f b s) = Raise e)
  /\ log_data (final (Log.start_meas_sample np_array_f b s)) = ∅
  /\ (exists pre,
        trace (Log.start_meas_sample np_array_f b s)
        = pre ++ [BusQuery (fetch_choice (trig_sense s)).1])
  /\ registers (bus (final (Log.start_meas_sample np_array_f b s)))
     = armed_registers (opr_ptr (bus s)) (opr_ntr (bus s))
  /\ opr_enab (bus (final (Log.start_meas_sample np_array_f b s))) = 32.
Proof.
  intros Hsrq Hev%trigger_fired_iff Harr.
  destruct (run_fetch_error np_array_f b s Hsrq Hev Harr) as (Ht & Hr & Hl).
  destruct (run_fired_state np_array_f b s Hsrq Hev) as (_ & Hg).
  assert (registers (bus (final (Log.start_meas_sample np_array_f b s)))
          = armed_registers (opr_ptr (bus s)) (opr_ntr (bus s))) as Hreg
    by (apply Hg; by rewrite Hr).
  split; [eauto|]. split; [done|]. split; [|split; [done|]].
  - exists (head_events (bus s) b ++ wake_events).
    by rewrite Ht, <- List.app_assoc.
  - unfold registers, armed_registers in Hreg. by injection Hreg.
Qed.

(** X12: when [np.arange] cannot compute a length (an integration time of
    0, for one), the call raises after the samples were stored: [log_data]
    is left with the samples and without the "seconds" entry, and the
    registers are not written back. *)
Theorem arange_error_leaves_partial_data b s arr :
  srq_raised (bus s) = true ->
  Z.land (event_after_wait (bus s)) 32 <> 0 ->
  np_array_f (Py.split_comma
                (fetch_reply (bus s) (fetch_choice (trig_sense s)).1))
  = Some arr ->
  Np.arange 0 (integration_time s * sample_points s) (integration_time s)
  = None ->
  (exists e, result (Log.start_meas_sample np_array_f b s) = Raise e)
  /\ log_data (final (Log.start_meas_sample np_array_f b s))
     = {[(fetch_choice (trig_sense s)).2 := arr]}
  /\ log_data (final (Log.start_meas_sample np_array_f b s)) !! "seconds"
     = None
  /\ registers (bus (final (Log.start_meas_sample np_array_f b s)))
     = armed_registers (opr_ptr (bus s)) (opr_ntr (bus s)).
Proof.
  intros Hsrq Hev%trigger_fired_iff Harr Hsecs.
  destruct (run_arange_error np_array_f b s arr Hsrq Hev Harr Hsecs)
    as (Ht & Hr & Hl).
  destruct (run_fired_state np_array_f b s Hsrq Hev) as (_ & Hg).
  split; [eauto|]. rewrite Hl, insert_empty. split; [done|]. split.
  - apply lookup_singleton_ne. unfold fetch_choice.
    destruct (Py.str_in _ _); [done|]. by destruct (Py.str_in _ _).
  - apply Hg. by rewrite Hr.
Qed.

(** X13: two calls in a row compose: when both return normally and the
    enable value the first one found lies in 0..32767, the three registers
    after the second call are those before the first. *)
Theorem two_runs_restore b1 b2 s :
  result (Log.start_meas_sample np_array_f b1 s) = Ret tt ->
  result (Log.start_meas_sample np_array_f b2
            (final (Log.start_meas_sample np_array_f b1 s))) = Ret tt ->
  0 <= opr_enab (bus s) <= 32767 ->
  registers (bus (final (Log.start_meas_sample np_array_f b2
                           (final (Log.start_meas_sample np_array_f b1 s)))))
  = registers (bus s).
Proof.
  intros Hr1 Hr2 Henab. pose proof Henab as Ha%accepted_spec.
  assert (forall b s0,
            result (Log.start_meas_sample np_array_f b s0) = Ret tt ->
            registers (bus (final (Log.start_meas_sample np_array_f b s0)))
            = (opr_ptr (bus s0), opr_ntr (bus s0),
               if accepted (opr_enab (bus s0)) then opr_enab (bus s0) else 32))
    as Hone.
  { intros b s0 Hr.
    destruct (run_shape np_array_f b s0) as (? & ? & _ & _ & [H|H]).
    - destruct H as (_ & _ & ->). apply restored_registers_eq.
    - destruct H as [[e He] _]. congruence. }
  pose proof (Hone b1 s Hr1) as H1. rewrite Ha in H1.
  rewrite (Hone b2 _ Hr2).
  unfold registers in H1. injection H1 as -> -> ->. by rewrite Ha.
Qed.

End Composition.

Lemma fetch_error_skips_restoration_witness :
  opr_enab (bus (final (Log.start_meas_sample Fixture.np_refuse true
                          Fixture.scenario))) = 32.
Proof.
  apply (fetch_error_skips_restoration Fixture.np_refuse true Fixture.scenario).
  - reflexivity.
  - vm_compute. discriminate.
  - reflexivity.
Defined.

Lemma arange_error_leaves_partial_data_witness :
  log_data (final (Log.start_meas_sample Fixture.np_accept true
                     (Fixture.log (Fixture.instrument 32 0 0 [0; 32] true)
                        (Py.quoted "CURR") 0 5))) !! "seconds"
  = None.
Proof.
  eapply (arange_error_leaves_partial_data Fixture.np_accept true
            (Fixture.log (Fixture.instrument 32 0 0 [0; 32] true)
               (Py.quoted "CURR") 0 5)).
  - reflexivity.
  - vm_compute. discriminate.
  - reflexivity.
  - vm_compute. reflexivity.
Defined.

Lemma two_runs_restore_witness :
  registers
    (bus (final (Log.start_meas_sample Fixture.np_accept false
                   (final (Log.start_meas_sample Fixture.np_accept true
                             (Fixture.log
                                (Fixture.instrument 32 0 0 [0; 32; 0; 32] true)
                                (Py.quoted "CURR") 0.002 5))))))
  = (32, 0, 0).
Proof.
  apply (two_runs_restore Fixture.np_accept true false
           (Fixture.log (Fixture.instrument 32 0 0 [0; 32; 0; 32] true)
              (Py.quoted "CURR") 0.002 5)).
  - vm_compute. reflexivity.
  - vm_compute. reflexivity.
  - vm_compute. split; discriminate.
Defined.

(** ** The settings dictionary under [read_write] *)



(** X15: the empty text passes every validator on [str], so the setters
    built on them send it: the message is the header, a space and
    nothing, and the reply to the query that follows goes into the
    settings. *)
Theorem empty_text_is_sent d s :
  trace (Accessors.Trigger_source d (PyText.Str EmptyString) s)
  = [BusWrite "TRIG:ACQ:SOUR " None; BusQuery "TRIG:ACQ:SOUR?"]
  /\ trace (Accessors.Log_sample_points d (PyText.Str EmptyString) s)
     = [BusWrite "SENS:SWE:POIN " None; BusQuery "SENS:SWE:POIN?"]
  /\ trace (Accessors.Format_data_format d (PyText.Str EmptyString) s)
     = [BusWrite ":FORM:DATA " None; BusQuery ":FORM:DATA?"]
  /\ forall dvm,
       trace (Accessors.Trigger_sense dvm d (PyText.Str EmptyString) s)
       = [BusWrite ("SENS:FUNC " +:+ Py.quoted EmptyString) None;
          BusQuery "SENS:FUNC?"].
Proof.
  repeat split; try reflexivity. by intros [].
Qed.
